(** * The IntelliJ SFCC configuration source

    A shallow embedding of [src/sources/intellij-source.ts]: the settings
    extractor ([getConnectionSettings]), the connection resolver (the
    [flatMap] and [find] of [IntelliJSource.load]), the credential vault
    ([decryptCredentials]), the credential matcher ([findPassword],
    [findClientSecret]) and the assembly of the [NormalizedConfig].

    Conventions of the embedding.
    - An optional TypeScript field [f?: T] is an [option T]; [None] is
      [undefined].
    - JavaScript strings are compared with [===] and tested for truthiness
      only, so [string] with Leibniz equality is enough.
    - A [Record<string, V>] obtained from [JSON.parse] is a [gmap string V].
    - Values cast with [as T] are taken at the declared type [T].
    - Calls into Node and into fast-xml-parser are fields of an [Env]; a
      call that can raise returns a [completion]. *)

From stdpp Require Import base option list strings gmap.
From Stdlib Require Import Strings.Byte.

Set Default Proof Using "Type".
Local Set Warnings "-register-all".
Open Scope string_scope.
Open Scope list_scope.

(** ** JavaScript truthiness at the types the source tests *)

(** [!!s] for [s : string | undefined]: the empty string and [undefined]
    are falsy. *)
Definition truthy_string (s : option string) : bool :=
  match s with
  | Some s => negb (String.eqb s "")
  | None => false
  end.

(** [!!b] for [b : boolean | undefined]. *)
Definition truthy_bool (b : option bool) : bool :=
  match b with
  | Some b => b
  | None => false
  end.

(** [!!a] for an array or object that may be [undefined]: every array,
    also the empty one, is truthy. *)
Definition truthy_object {A : Type} (a : option A) : bool :=
  match a with
  | Some _ => true
  | None => false
  end.

(** ** Data model *)

(** [interface IntellijConnection]; the field ['code-version'] is
    [conn_code_version]. *)
Inductive IntellijConnection : Type := mkIntellijConnection {
  conn_name : option string;
  conn_hostname : option string;
  conn_secureHostname : option string;
  conn_username : option string;
  conn_code_version : option string;
  conn_clientId : option string;
  conn_shortCode : option string;
  conn_useOcapi : option bool;
  conn_active : option bool;
  conn_isGroup : option bool;
  conn_configs : option (list IntellijConnection)
}.

(** [interface ConnectionSettings]. *)
Record ConnectionSettings : Type := mkConnectionSettings {
  source : list IntellijConnection
}.

(** The element type of [Credentials.accounts[i].accessKeys]. *)
Record AccessKeySet : Type := mkAccessKeySet {
  ak_username : string;
  ak_keys : gmap string (gmap string string)
}.

(** The element type of [Credentials.accounts]. *)
Record Account : Type := mkAccount {
  acct_username : string;
  acct_password : option string;
  acct_hidePassword : option bool;
  acct_accessKeys : option (list AccessKeySet)
}.

(** The element type of [Credentials.ocapiKeys]. *)
Record OcapiKey : Type := mkOcapiKey {
  ocapi_clientId : string;
  ocapi_clientSecret : string
}.

(** [interface Credentials]. *)
Record Credentials : Type := mkCredentials {
  accounts : list Account;
  ocapiKeys : list OcapiKey
}.

(** The fields of the SDK's [NormalizedConfig] that [load] writes. *)
Record NormalizedConfig : Type := mkNormalizedConfig {
  cfg_hostname : option string;
  cfg_webdavHostname : option string;
  cfg_username : option string;
  cfg_codeVersion : option string;
  cfg_shortCode : option string;
  cfg_clientId : option string;
  cfg_password : option string;
  cfg_clientSecret : option string
}.

(** The field of the SDK's [ResolveConfigOptions] that [load] reads. *)
Record ResolveConfigOptions : Type := mkResolveConfigOptions {
  instance : option string
}.

(** ** Connection resolver *)

(** The callback of [flatMap] in [load]:
    [source.isGroup && source.configs ? source.configs : [source]]. *)
Definition flattenSource (source : IntellijConnection) : list IntellijConnection :=
  if truthy_bool (conn_isGroup source) && truthy_object (conn_configs source)
  then default [] (conn_configs source)
  else [source].

(** [connectionSettings.source.flatMap(...)]. *)
Definition allConnections (source : list IntellijConnection) : list IntellijConnection :=
  flat_map flattenSource source.

(** The selection of [load]: by name when [options.instance] is truthy,
    by the [active] flag otherwise. *)
Definition selectConnection (options : ResolveConfigOptions)
    (allConnections : list IntellijConnection) : option IntellijConnection :=
  if truthy_string (instance options)
  then find (fun c => bool_decide (conn_name c = instance options)) allConnections
  else find (fun c => truthy_bool (conn_active c)) allConnections.

(** ** Credential matcher *)

(** [findPassword(credentials, username, hostname)]. *)
Definition findPassword (credentials : Credentials) (username hostname : string)
    : option string :=
  match find (fun a => bool_decide (acct_username a = username)) (accounts credentials) with
  | None => None
  | Some account =>
      let accessKeySet :=
        acct_accessKeys account ≫=
          find (fun ak => bool_decide (ak_username ak = username)) in
      match accessKeySet with
      | Some aks =>
          let hostKeys := ak_keys aks !! hostname in
          let webdav := hostKeys ≫= (fun hk => hk !! "WebDAV") in
          if truthy_string webdav then webdav else acct_password account
      | None => acct_password account
      end
  end.

(** [findClientSecret(credentials, clientId)]. *)
Definition findClientSecret (credentials : Credentials) (clientId : string)
    : option string :=
  ocapi_clientSecret <$>
    find (fun k => bool_decide (ocapi_clientId k = clientId)) (ocapiKeys credentials).

(** ** Exceptions

    A JavaScript call either completes normally or throws. *)

Inductive exn : Type :=
  | Error (message : string).

Inductive completion (A : Type) : Type :=
  | Normal (a : A)
  | Throw (e : exn).

Arguments Normal {A} a.
Arguments Throw {A} e.

Definition bind {A B : Type} (c : completion A) (k : A -> completion B)
    : completion B :=
  match c with
  | Normal a => k a
  | Throw e => Throw e
  end.

(** [try { body } catch { handler }]. *)
Definition try_catch {A : Type} (body : completion A) (handler : exn -> completion A)
    : completion A :=
  match body with
  | Normal a => Normal a
  | Throw e => handler e
  end.

Declare Scope js_scope.
Delimit Scope js_scope with js.
Notation "'let*' x := c 'in' k" := (bind c (fun x => k))
  (at level 10, x pattern, c at level 100, k at level 200)
  : js_scope.
Open Scope js_scope.

(** ** The document that [parser.parse] returns

    With [preserveOrder: true] fast-xml-parser returns an array of nodes;
    a node carries its children under its tag name and its attributes
    under [':@']. The source casts the result to
    [Array<{project?: Array<{component?: Array<{':@'?: {name?, value?}}>;
    ':@'?: {name?}}>}>], which the next four records follow. *)

(** [{name?: string; value?: string}]. *)
Record XmlOptionAttrs : Type := mkXmlOptionAttrs {
  oattr_name : option string;
  oattr_value : option string
}.

(** An element of a [component] array: [{':@'?: {name?, value?}}]. *)
Record XmlOption : Type := mkXmlOption {
  opt_attrs : option XmlOptionAttrs
}.

(** [{name?: string}]. *)
Record XmlComponentAttrs : Type := mkXmlComponentAttrs {
  cattr_name : option string
}.

(** An element of a [project] array. *)
Record XmlProjectChild : Type := mkXmlProjectChild {
  component : option (list XmlOption);
  pc_attrs : option XmlComponentAttrs
}.

(** An element of the parsed document. *)
Record XmlNode : Type := mkXmlNode {
  project : option (list XmlProjectChild)
}.

(** ** The environment

    What the source reaches outside its own text: [process], [node:fs],
    [node:path], [node:crypto], [Buffer], [JSON] and the XML parser
    (configured as in [getConnectionSettings], entities added). *)
Record Env : Type := mkEnv {
  process_env : gmap string string;
  process_cwd : string;
  join : string -> string -> string;
  existsSync : string -> bool;
  readFileSync : string -> completion string;
  XMLParser_parse : string -> completion (list XmlNode);
  JSON_parse_ConnectionSettings : string -> completion ConnectionSettings;
  JSON_parse_Credentials : string -> completion Credentials;
  Decipher : Type;
  Buffer_from_base64 : string -> completion (list byte);
  createDecipheriv : string -> string -> completion Decipher;
  decipher_update : Decipher -> list byte -> completion (Decipher * list byte);
  decipher_final : Decipher -> completion (list byte);
  Buffer_toString_utf8 : list byte -> string
}.

Definition DEFAULT_PROJECT_FILE : string := "./.idea/misc.xml".
Definition DEFAULT_ALGORITHM : string := "aes-192-ecb".

(** ** Settings extractor *)

(** [getConnectionSettings(filename)]. *)
Definition getConnectionSettings (E : Env) (filename : string)
    : completion (option ConnectionSettings) :=
  if negb (existsSync E filename) then Normal None else
  let* content := readFileSync E filename in
  let* xml := XMLParser_parse E content in
  let projectEl := find (fun el => truthy_object (project el)) xml in
  match projectEl ≫= project with
  | None => Normal None
  | Some projectChildren =>
      let connectionSettingsComponent :=
        find (fun el =>
                truthy_object (component el) &&
                bool_decide (pc_attrs el ≫= cattr_name
                             = Some "IntellijSFCCConnectionSettings"))
             projectChildren in
      match connectionSettingsComponent ≫= component with
      | None => Normal None
      | Some options =>
          let jsonOption :=
            find (fun opt => bool_decide (opt_attrs opt ≫= oattr_name = Some "json"))
                 options in
          let jsonValue := (jsonOption ≫= opt_attrs) ≫= oattr_value in
          match jsonValue with
          | Some jsonText =>
              if truthy_string jsonValue
              then try_catch
                     (let* settings := JSON_parse_ConnectionSettings E jsonText in
                      Normal (Some settings))
                     (fun _ => Normal None)
              else Normal None
          | None => Normal None
          end
      end
  end.

(** ** Credential vault *)

(** [decryptCredentials(cipherText, key, algorithm)]: the whole body is
    inside [try], the handler returns [undefined]. *)
Definition decryptCredentials (E : Env) (cipherText key algorithm : string)
    : completion (option Credentials) :=
  try_catch
    (let* buffer := Buffer_from_base64 E cipherText in
     let* decipher := createDecipheriv E algorithm key in
     let* (decipher', updated) := decipher_update E decipher buffer in
     let* final := decipher_final E decipher' in
     let decrypted := updated ++ final in
     let* credentials := JSON_parse_Credentials E (Buffer_toString_utf8 E decrypted) in
     Normal (Some credentials))
    (fun _ => Normal None).

(** ** Config assembler *)

(** The object literal that starts [config] in [load]. *)
Definition baseConfig (connection : IntellijConnection) : NormalizedConfig :=
  {| cfg_hostname := conn_hostname connection;
     cfg_webdavHostname := conn_secureHostname connection;
     cfg_username := conn_username connection;
     cfg_codeVersion := conn_code_version connection;
     cfg_shortCode := conn_shortCode connection;
     cfg_clientId := None;
     cfg_password := None;
     cfg_clientSecret := None |}.

(** [config.clientId = v]. *)
Definition set_clientId (config : NormalizedConfig) (v : option string)
    : NormalizedConfig :=
  {| cfg_hostname := cfg_hostname config;
     cfg_webdavHostname := cfg_webdavHostname config;
     cfg_username := cfg_username config;
     cfg_codeVersion := cfg_codeVersion config;
     cfg_shortCode := cfg_shortCode config;
     cfg_clientId := v;
     cfg_password := cfg_password config;
     cfg_clientSecret := cfg_clientSecret config |}.

(** [config.password = v]. *)
Definition set_password (config : NormalizedConfig) (v : option string)
    : NormalizedConfig :=
  {| cfg_hostname := cfg_hostname config;
     cfg_webdavHostname := cfg_webdavHostname config;
     cfg_username := cfg_username config;
     cfg_codeVersion := cfg_codeVersion config;
     cfg_shortCode := cfg_shortCode config;
     cfg_clientId := cfg_clientId config;
     cfg_password := v;
     cfg_clientSecret := cfg_clientSecret config |}.

(** [config.clientSecret = v]. *)
Definition set_clientSecret (config : NormalizedConfig) (v : option string)
    : NormalizedConfig :=
  {| cfg_hostname := cfg_hostname config;
     cfg_webdavHostname := cfg_webdavHostname config;
     cfg_username := cfg_username config;
     cfg_codeVersion := cfg_codeVersion config;
     cfg_shortCode := cfg_shortCode config;
     cfg_clientId := cfg_clientId config;
     cfg_password := cfg_password config;
     cfg_clientSecret := v |}.

(** [if (connection.useOcapi && connection.clientId) config.clientId = ...]. *)
Definition withClientId (connection : IntellijConnection) (config : NormalizedConfig)
    : NormalizedConfig :=
  if truthy_bool (conn_useOcapi connection) && truthy_string (conn_clientId connection)
  then set_clientId config (conn_clientId connection)
  else config.

(** The password lookup of [load], inside [if (credentials)]. *)
Definition withPassword (credentials : Credentials) (connection : IntellijConnection)
    (config : NormalizedConfig) : NormalizedConfig :=
  match conn_username connection, conn_hostname connection with
  | Some username, Some hostname =>
      if truthy_string (Some username) && truthy_string (Some hostname)
      then let password := findPassword credentials username hostname in
           if truthy_string password then set_password config password else config
      else config
  | _, _ => config
  end.

(** The client secret lookup of [load], inside [if (credentials)]. *)
Definition withClientSecret (credentials : Credentials) (config : NormalizedConfig)
    : NormalizedConfig :=
  match cfg_clientId config with
  | Some clientId =>
      if truthy_string (Some clientId)
      then let clientSecret := findClientSecret credentials clientId in
           if truthy_string clientSecret then set_clientSecret config clientSecret
           else config
      else config
  | None => config
  end.

(** The part of [load] from [const credentialsFile = ...] to
    [return config]. *)
Definition loadCredentials (E : Env) (connection : IntellijConnection)
    (config : NormalizedConfig) : completion NormalizedConfig :=
  let credentialsFile := process_env E !! "SFCC_INTELLIJ_CREDENTIALS_FILE" in
  let credentialsKey := process_env E !! "SFCC_INTELLIJ_CREDENTIALS_KEY" in
  let algorithm :=
    default DEFAULT_ALGORITHM (process_env E !! "SFCC_INTELLIJ_ALGORITHM") in
  match credentialsFile, credentialsKey with
  | Some file, Some key =>
      if truthy_string credentialsFile && truthy_string credentialsKey
         && existsSync E file
      then
        let* cipherText := readFileSync E file in
        let* credentials := decryptCredentials E cipherText key algorithm in
        match credentials with
        | Some credentials =>
            Normal (withClientSecret credentials
                      (withPassword credentials connection config))
        | None => Normal config
        end
      else Normal config
  | _, _ => Normal config
  end.

(** A config record whose [password] and [clientSecret], when set, are
    non-empty. *)
Definition secretsNonEmpty (config : NormalizedConfig) : Prop :=
  (forall password, cfg_password config = Some password -> password ≠ "") /\
  (forall clientSecret,
     cfg_clientSecret config = Some clientSecret -> clientSecret ≠ "").

(** The instance state of [class IntelliJSource]. *)
Record IntelliJSource : Type := mkIntelliJSource {
  projectFilePath : option string
}.

(** [const projectFile = process.env.SFCC_INTELLIJ_PROJECT_FILE ??
    join(process.cwd(), DEFAULT_PROJECT_FILE)]. *)
Definition projectFile (E : Env) : string :=
  default (join E (process_cwd E) DEFAULT_PROJECT_FILE)
          (process_env E !! "SFCC_INTELLIJ_PROJECT_FILE").

(** [IntelliJSource.load(options)]: the new instance state and the
    completion of the call. *)
Definition load (E : Env) (this : IntelliJSource) (options : ResolveConfigOptions)
    : IntelliJSource * completion (option NormalizedConfig) :=
  let this' := {| projectFilePath := Some (projectFile E) |} in
  (this',
   let* connectionSettings := getConnectionSettings E (projectFile E) in
   match connectionSettings with
   | None => Normal None
   | Some connectionSettings =>
       if Nat.eqb (length (source connectionSettings)) 0 then Normal None else
       let allConnections := allConnections (source connectionSettings) in
       match selectConnection options allConnections with
       | None => Normal None
       | Some connection =>
           let config := withClientId connection (baseConfig connection) in
           let* config := loadCredentials E connection config in
           Normal (Some config)
       end
   end).

(** [IntelliJSource.getPath()]. *)
Definition getPath (this : IntelliJSource) : option string :=
  projectFilePath this.

(** ** Where a flattened record comes from

    [JSON.parse] builds a tree of fresh objects, so a record of the
    flattened list is identified by its place in that tree: the [i]-th
    top-level record, or the [j]-th child of the [i]-th top-level record.
    [allConnectionsFrom] is [allConnections] with each record tagged by its
    place; [allConnectionsFrom_erase] below shows that dropping the tags
    gives [allConnections] back. *)

Inductive place : Type :=
  | TopLevel (i : nat)
  | ChildOf (i j : nat).

Definition flattenSourceAt (i : nat) (source : IntellijConnection)
    : list (place * IntellijConnection) :=
  if truthy_bool (conn_isGroup source) && truthy_object (conn_configs source)
  then imap (fun j child => (ChildOf i j, child)) (default [] (conn_configs source))
  else [(TopLevel i, source)].

Fixpoint allConnectionsFrom (i : nat) (source : list IntellijConnection)
    : list (place * IntellijConnection) :=
  match source with
  | [] => []
  | s :: rest => flattenSourceAt i s ++ allConnectionsFrom (S i) rest
  end.

(** The record at a place of the parsed settings. *)
Definition recordAt (source : list IntellijConnection) (p : place)
    : option IntellijConnection :=
  match p with
  | TopLevel i => source !! i
  | ChildOf i j =>
      source !! i ≫= fun g => conn_configs g ≫= fun children => children !! j
  end.

(** The top-level records that [flatMap] replaces by their children. *)
Definition isExpandedGroup (source : IntellijConnection) : bool :=
  truthy_bool (conn_isGroup source) && truthy_object (conn_configs source).

(** [selectConnection] on the tagged list: the same two [find]s, the
    predicates reading the record of each pair. *)
Definition selectConnectionAt (options : ResolveConfigOptions)
    (tagged : list (place * IntellijConnection))
    : option (place * IntellijConnection) :=
  if truthy_string (instance options)
  then find (fun c => bool_decide (conn_name c.2 = instance options)) tagged
  else find (fun c => truthy_bool (conn_active c.2)) tagged.

(** ** Reading [find] as "the first"

    What "the account with matching user name" and "an access key set
    whose user name matches" denote once duplicates are allowed. *)

(** The first account of the store with the given user name. *)
Definition firstAccount (credentials : Credentials) (username : string)
    (account : Account) : Prop :=
  exists before after,
    accounts credentials = before ++ account :: after /\
    acct_username account = username /\
    Forall (fun a => acct_username a ≠ username) before.

(** The first access key set of the account with the given user name. *)
Definition firstAccessKeySet (account : Account) (username : string)
    (aks : AccessKeySet) : Prop :=
  exists keysets before after,
    acct_accessKeys account = Some keysets /\
    keysets = before ++ aks :: after /\
    ak_username aks = username /\
    Forall (fun k => ak_username k ≠ username) before.

(** ** Sample data

    The two end-to-end scenarios of the documentation, and an environment
    in which they run: one project file, one credentials file, and stand-ins
    for the parsers and the cipher that recognise exactly these files. *)

Definition leaf (name hostname username : string) (active : bool)
    : IntellijConnection :=
  {| conn_name := Some name;
     conn_hostname := Some hostname;
     conn_secureHostname := None;
     conn_username := Some username;
     conn_code_version := Some "version1";
     conn_clientId := Some "client1";
     conn_shortCode := None;
     conn_useOcapi := Some true;
     conn_active := Some active;
     conn_isGroup := None;
     conn_configs := None |}.

Definition group (name : string) (children : list IntellijConnection)
    : IntellijConnection :=
  {| conn_name := Some name;
     conn_hostname := None;
     conn_secureHostname := None;
     conn_username := None;
     conn_code_version := None;
     conn_clientId := None;
     conn_shortCode := None;
     conn_useOcapi := None;
     conn_active := Some true;
     conn_isGroup := Some true;
     conn_configs := Some children |}.

Definition staging : IntellijConnection := leaf "staging" "h0" "u0" false.
Definition prod : IntellijConnection := leaf "prod" "h1" "u1" true.
Definition dev1 : IntellijConnection := leaf "dev1" "h2" "u1" false.
Definition dev2 : IntellijConnection := leaf "dev2" "h3" "u1" true.
Definition sandboxes : IntellijConnection := group "sandboxes" [dev1; dev2].
Definition unnamed : IntellijConnection := leaf "" "h9" "u9" false.

Definition sampleSettings : ConnectionSettings :=
  {| source := [staging; prod] |}.

Definition sampleAccount : Account :=
  {| acct_username := "u1";
     acct_password := Some "secret2";
     acct_hidePassword := None;
     acct_accessKeys :=
       Some [ {| ak_username := "u1";
                 ak_keys := {[ "h1" := {[ "WebDAV" := "secret1" ]} ]} |} ] |}.

Definition plainAccount : Account :=
  {| acct_username := "u0";
     acct_password := Some "secret0";
     acct_hidePassword := None;
     acct_accessKeys := None |}.

Definition sampleCredentials : Credentials :=
  {| accounts := [plainAccount; sampleAccount];
     ocapiKeys := [ {| ocapi_clientId := "client1";
                       ocapi_clientSecret := "clientsecret1" |} ] |}.

(** An account whose WebDAV entry for ["h1"] is the empty string. *)
Definition emptyKeyAccount : Account :=
  {| acct_username := "u1";
     acct_password := Some "secret2";
     acct_hidePassword := None;
     acct_accessKeys :=
       Some [ {| ak_username := "u1";
                 ak_keys := {[ "h1" := {[ "WebDAV" := "" ]} ]} |} ] |}.

Definition emptyKeyCredentials : Credentials :=
  {| accounts := [emptyKeyAccount]; ocapiKeys := [] |}.

Definition sampleDocument : list XmlNode :=
  [ {| project := None |};
    {| project :=
         Some [ {| component := Some [];
                   pc_attrs := Some {| cattr_name := Some "ProjectRootManager" |} |};
                {| component :=
                     Some [ {| opt_attrs :=
                                 Some {| oattr_name := Some "json";
                                         oattr_value := Some "{settings}" |} |} ];
                   pc_attrs :=
                     Some {| cattr_name :=
                               Some "IntellijSFCCConnectionSettings" |} |} ] |} ].

Definition sampleEnv : Env :=
  {| process_env :=
       {[ "SFCC_INTELLIJ_PROJECT_FILE" := "misc.xml";
          "SFCC_INTELLIJ_CREDENTIALS_FILE" := "credentials";
          "SFCC_INTELLIJ_CREDENTIALS_KEY" := "key" ]};
     process_cwd := "/work";
     join := fun a b => String.append a (String.append "/" b);
     existsSync := fun f => String.eqb f "misc.xml" || String.eqb f "credentials";
     readFileSync := fun f =>
       if String.eqb f "misc.xml" then Normal "<project/>"
       else if String.eqb f "credentials" then Normal "Y2lwaGVy"
       else Throw (Error "ENOENT");
     XMLParser_parse := fun content =>
       if String.eqb content "<project/>" then Normal sampleDocument
       else Throw (Error "Comment is not closed.");
     JSON_parse_ConnectionSettings := fun text =>
       if String.eqb text "{settings}" then Normal sampleSettings
       else Throw (Error "SyntaxError");
     JSON_parse_Credentials := fun text =>
       if String.eqb text "{credentials}" then Normal sampleCredentials
       else Throw (Error "SyntaxError");
     Decipher := list byte;
     Buffer_from_base64 := fun _ => Normal [];
     createDecipheriv := fun algorithm key =>
       if String.eqb algorithm "aes-192-ecb" && String.eqb key "key"
       then Normal []
       else Throw (Error "Invalid key length");
     decipher_update := fun d data => Normal (d ++ data, []);
     decipher_final := fun _ => Normal [];
     Buffer_toString_utf8 := fun _ => "{credentials}" |}.

(** The same environment with a project file that holds an unterminated
    comment, on which the parser raises. *)
Definition brokenEnv : Env :=
  {| process_env := process_env sampleEnv;
     process_cwd := process_cwd sampleEnv;
     join := join sampleEnv;
     existsSync := existsSync sampleEnv;
     readFileSync := fun f =>
       if String.eqb f "misc.xml" then Normal "<!--" else readFileSync sampleEnv f;
     XMLParser_parse := XMLParser_parse sampleEnv;
     JSON_parse_ConnectionSettings := JSON_parse_ConnectionSettings sampleEnv;
     JSON_parse_Credentials := JSON_parse_Credentials sampleEnv;
     Decipher := Decipher sampleEnv;
     Buffer_from_base64 := Buffer_from_base64 sampleEnv;
     createDecipheriv := createDecipheriv sampleEnv;
     decipher_update := decipher_update sampleEnv;
     decipher_final := decipher_final sampleEnv;
     Buffer_toString_utf8 := Buffer_toString_utf8 sampleEnv |}.

Definition freshSource : IntelliJSource := {| projectFilePath := None |}.

(** ** Reading the credential settings of [load]

    [load] decrypts a credentials file only under
    [credentialsFile && credentialsKey && existsSync(credentialsFile)];
    the two definitions below name that guard and the algorithm
    [process.env.SFCC_INTELLIJ_ALGORITHM ?? DEFAULT_ALGORITHM] for use in
    statements. *)

Definition credentialsConfigured (E : Env) (file key : string) : Prop :=
  process_env E !! "SFCC_INTELLIJ_CREDENTIALS_FILE" = Some file /\
  file ≠ "" /\
  process_env E !! "SFCC_INTELLIJ_CREDENTIALS_KEY" = Some key /\
  key ≠ "" /\
  existsSync E file = true.

Definition credentialsAlgorithm (E : Env) : string :=
  default DEFAULT_ALGORITHM (process_env E !! "SFCC_INTELLIJ_ALGORITHM").

(** An environment with other variables in [process.env]. *)
Definition withProcessEnv (E : Env) (vars : gmap string string) : Env :=
  {| process_env := vars;
     process_cwd := process_cwd E;
     join := join E;
     existsSync := existsSync E;
     readFileSync := readFileSync E;
     XMLParser_parse := XMLParser_parse E;
     JSON_parse_ConnectionSettings := JSON_parse_ConnectionSettings E;
     JSON_parse_Credentials := JSON_parse_Credentials E;
     Decipher := Decipher E;
     Buffer_from_base64 := Buffer_from_base64 E;
     createDecipheriv := createDecipheriv E;
     decipher_update := decipher_update E;
     decipher_final := decipher_final E;
     Buffer_toString_utf8 := Buffer_toString_utf8 E |}.

(** The sample environment without credential variables, and with a key
    that the cipher refuses. *)
Definition noCredentialsEnv : Env :=
  withProcessEnv sampleEnv {[ "SFCC_INTELLIJ_PROJECT_FILE" := "misc.xml" ]}.

Definition wrongKeyEnv : Env :=
  withProcessEnv sampleEnv
    {[ "SFCC_INTELLIJ_PROJECT_FILE" := "misc.xml";
       "SFCC_INTELLIJ_CREDENTIALS_FILE" := "credentials";
       "SFCC_INTELLIJ_CREDENTIALS_KEY" := "other" ]}.

(** The config that [load] returns for [prod] in the sample environment. *)
Definition prodConfig : NormalizedConfig :=
  {| cfg_hostname := Some "h1";
     cfg_webdavHostname := None;
     cfg_username := Some "u1";
     cfg_codeVersion := Some "version1";
     cfg_shortCode := None;
     cfg_clientId := Some "client1";
     cfg_password := Some "secret1";
     cfg_clientSecret := Some "clientsecret1" |}.

(** * Properties *)

(** Splits a conjunction of stage clauses and closes the ones that the
    recorded stage results decide. *)
Ltac settle_stages :=
  repeat split; intros;
  repeat match goal with
         | H : ex _ |- _ => destruct H
         | H : _ /\ _ |- _ => destruct H
         end;
  simplify_eq; try done; try congruence; eauto 10.

(** ** [Array.prototype.find] returns the first match *)

Section find_first.
Context {A : Type} (p : A -> bool).

Lemma find_Some_first (l : list A) (x : A) :
  find p l = Some x <->
  exists pre post,
    l = pre ++ x :: post /\ p x = true /\ Forall (fun y => p y = false) pre.
Proof.
  induction l as [|a l IH]; simpl.
  - split; [discriminate|].
    intros (pre & post & Heq & _). by destruct pre.
  - destruct (p a) eqn:Hpa.
    + split.
      * intros [= ->]. exists [], l. by repeat split.
      * intros (pre & post & Heq & Hx & Hpre).
        destruct pre as [|b pre]; simplify_eq/=; [done|].
        apply Forall_cons in Hpre as [Hb _]. congruence.
    + rewrite IH. split.
      * intros (pre & post & -> & Hx & Hpre).
        exists (a :: pre), post. repeat split; [done|]. by constructor.
      * intros (pre & post & Heq & Hx & Hpre).
        destruct pre as [|b pre]; simplify_eq/=; [congruence|].
        apply Forall_cons in Hpre as [_ Hpre]. by exists pre, post.
Qed.

Lemma find_None_all (l : list A) :
  find p l = None <-> Forall (fun y => p y = false) l.
Proof.
  induction l as [|a l IH]; simpl.
  - split; [constructor|done].
  - destruct (p a) eqn:Hpa.
    + split; [discriminate|]. intros [Ha _]%Forall_cons. congruence.
    + rewrite IH. split; [by constructor|]. by intros [_ ?]%Forall_cons.
Qed.

Lemma find_elem_of (l : list A) (x : A) :
  find p l = Some x -> x ∈ l /\ p x = true.
Proof.
  intros (pre & post & -> & Hx & _)%find_Some_first. split; [|done].
  apply elem_of_app. right. apply list_elem_of_here.
Qed.

Lemma find_fmap {B : Type} (f : B -> A) (l : list B) :
  find p (f <$> l) = f <$> find (fun b => p (f b)) l.
Proof.
  induction l as [|b l IH]; simpl; [done|]. by destruct (p (f b)).
Qed.
End find_first.

(** ** Flattening *)

Lemma allConnections_app (l1 l2 : list IntellijConnection) :
  allConnections (l1 ++ l2) = allConnections l1 ++ allConnections l2.
Proof. apply flat_map_app. Qed.

Lemma allConnections_cons (s : IntellijConnection) (l : list IntellijConnection) :
  allConnections (s :: l) = flattenSource s ++ allConnections l.
Proof. done. Qed.

Lemma flattenSource_group (g : IntellijConnection) (children : list IntellijConnection) :
  conn_isGroup g = Some true -> conn_configs g = Some children ->
  flattenSource g = children.
Proof. unfold flattenSource. by intros -> ->. Qed.

Lemma flattenSource_other (r : IntellijConnection) :
  isExpandedGroup r = false -> flattenSource r = [r].
Proof. unfold flattenSource, isExpandedGroup. by intros ->. Qed.

Lemma flattenSourceAt_erase (i : nat) (s : IntellijConnection) :
  snd <$> flattenSourceAt i s = flattenSource s.
Proof.
  unfold flattenSourceAt, flattenSource.
  destruct (_ && _); [|done].
  rewrite fmap_imap. generalize (default [] (conn_configs s)). intros l.
  rewrite (imap_ext _ (const id)); [|done]. by rewrite imap_const, list_fmap_id.
Qed.

Lemma allConnectionsFrom_erase (i : nat) (source : list IntellijConnection) :
  snd <$> allConnectionsFrom i source = allConnections source.
Proof.
  revert i. induction source as [|s rest IH]; intros i; simpl; [done|].
  by rewrite fmap_app, flattenSourceAt_erase, IH.
Qed.

(** Every tagged record sits at its place, and a top-level place in the
    flattened list is never the place of an expanded group. *)
Lemma allConnectionsFrom_place (i : nat) (source : list IntellijConnection)
    (p : place) (r : IntellijConnection) :
  (p, r) ∈ allConnectionsFrom i source ->
  (exists k, p = TopLevel (i + k) /\ source !! k = Some r /\
             isExpandedGroup r = false) \/
  (exists k j g children,
      p = ChildOf (i + k) j /\ source !! k = Some g /\
      isExpandedGroup g = true /\ conn_configs g = Some children /\
      children !! j = Some r).
Proof.
  revert i. induction source as [|s rest IH]; intros i; simpl.
  - by intros ?%elem_of_nil.
  - intros [Hin|Hin]%elem_of_app.
    + unfold flattenSourceAt in Hin. fold (isExpandedGroup s) in Hin.
      destruct (isExpandedGroup s) eqn:Hs.
      * apply elem_of_lookup_imap in Hin as (j & c & [= -> ->] & Hj).
        right. exists 0, j, s.
        destruct (conn_configs s) as [children|] eqn:Hcs.
        -- exists children. by rewrite Nat.add_0_r.
        -- unfold isExpandedGroup in Hs. by rewrite Hcs, andb_false_r in Hs.
      * apply list_elem_of_singleton in Hin as [= -> ->].
        left. exists 0. by rewrite Nat.add_0_r.
    + apply IH in Hin as [(k & -> & Hk & Hr)|(k & j & g & cs & -> & Hk & Hg)].
      * left. exists (S k). by rewrite Nat.add_succ_r.
      * right. exists (S k), j, g, cs. by rewrite Nat.add_succ_r.
Qed.

Lemma selectConnectionAt_erase (options : ResolveConfigOptions)
    (tagged : list (place * IntellijConnection)) :
  selectConnection options (snd <$> tagged)
  = snd <$> selectConnectionAt options tagged.
Proof.
  unfold selectConnection, selectConnectionAt.
  destruct (truthy_string _).
  - apply (find_fmap (fun c => bool_decide (conn_name c = instance options))).
  - apply (find_fmap (fun c => truthy_bool (conn_active c))).
Qed.

Example load_sample_prod :
  (load sampleEnv freshSource {| instance := None |}).2
  = Normal (Some {| cfg_hostname := Some "h1";
                    cfg_webdavHostname := None;
                    cfg_username := Some "u1";
                    cfg_codeVersion := Some "version1";
                    cfg_shortCode := None;
                    cfg_clientId := Some "client1";
                    cfg_password := Some "secret1";
                    cfg_clientSecret := Some "clientsecret1" |}).
Proof. vm_compute. reflexivity. Qed.

Example load_sample_staging :
  (load sampleEnv freshSource {| instance := Some "staging" |}).2
  = Normal (Some {| cfg_hostname := Some "h0";
                    cfg_webdavHostname := None;
                    cfg_username := Some "u0";
                    cfg_codeVersion := Some "version1";
                    cfg_shortCode := None;
                    cfg_clientId := Some "client1";
                    cfg_password := Some "secret0";
                    cfg_clientSecret := Some "clientsecret1" |}).
Proof. vm_compute. reflexivity. Qed.

Example load_sample_unknown :
  (load sampleEnv freshSource {| instance := Some "unknown" |}).2 = Normal None.
Proof. vm_compute. reflexivity. Qed.

Example load_sample_path :
  getPath (load sampleEnv freshSource {| instance := None |}).1 = Some "misc.xml".
Proof. vm_compute. reflexivity. Qed.

Example findPassword_sample :
  findPassword sampleCredentials "u1" "h1" = Some "secret1".
Proof. vm_compute. reflexivity. Qed.

Lemma isExpandedGroup_non_group (r : IntellijConnection) :
  conn_isGroup r ≠ Some true -> isExpandedGroup r = false.
Proof.
  unfold isExpandedGroup. destruct (conn_isGroup r) as [[]|]; simpl; done.
Qed.

(** A record selected from the tagged list sits at its place in the
    parsed settings, and that place is never the top-level place of a
    record that [flatMap] expanded. *)
Lemma selectConnectionAt_place (options : ResolveConfigOptions)
    (source : list IntellijConnection) (p : place) (r : IntellijConnection) :
  selectConnectionAt options (allConnectionsFrom 0 source) = Some (p, r) ->
  recordAt source p = Some r /\
  forall i g, p = TopLevel i -> source !! i = Some g -> isExpandedGroup g = false.
Proof.
  intros Hsel.
  assert ((p, r) ∈ allConnectionsFrom 0 source) as Hin.
  { unfold selectConnectionAt in Hsel.
    destruct (truthy_string _); by apply find_elem_of in Hsel as [? _]. }
  apply allConnectionsFrom_place in Hin
    as [(k & -> & Hk & Hr)|(k & j & g & cs & -> & Hk & Hg & Hcs & Hj)]; simpl.
  - split; [done|]. intros i g [= <-]. rewrite Hk. by intros [= <-].
  - split; [|done]. by rewrite Hk; simpl; rewrite Hcs.
Qed.

(** C1. When the top-level list of the parsed settings holds, after the
    records [pre] and before the records [post], a record [g] with
    [isGroup = true] and N children: the flattened list is the flattening
    of [pre], then exactly the N children of [g] in their order, then the
    flattening of [post]; every top-level record that is not a group stays
    in the flattened list as it is, between the flattenings of what precedes
    and what follows it; and the record that selection returns, by name or
    by [active] flag, is never the object at the place of [g]: it is the
    object at some other place of the parsed tree. *)
Theorem flatten_replaces_group_by_children
    (pre post : list IntellijConnection) (g : IntellijConnection)
    (children : list IntellijConnection) (N : nat) :
  conn_isGroup g = Some true ->
  conn_configs g = Some children ->
  length children = N ->
  let settings := {| source := pre ++ g :: post |} in
  allConnections (source settings)
    = allConnections pre ++ children ++ allConnections post
  /\ length (allConnections (source settings))
     = length (allConnections pre) + N + length (allConnections post)
  /\ (forall l1 r l2,
        source settings = l1 ++ r :: l2 ->
        conn_isGroup r ≠ Some true ->
        allConnections (source settings)
          = allConnections l1 ++ r :: allConnections l2)
  /\ (forall options,
        selectConnection options (allConnections (source settings))
          = snd <$> selectConnectionAt options
                      (allConnectionsFrom 0 (source settings))
        /\ forall p r,
             selectConnectionAt options (allConnectionsFrom 0 (source settings))
               = Some (p, r) ->
             p ≠ TopLevel (length pre) /\ recordAt (source settings) p = Some r).
Proof.
  intros Hgroup Hconfigs HN settings. simpl.
  assert (allConnections (pre ++ g :: post)
          = allConnections pre ++ children ++ allConnections post) as Hflat.
  { rewrite allConnections_app, allConnections_cons.
    by rewrite (flattenSource_group g children). }
  split; [done|]. split.
  { rewrite Hflat, !length_app. lia. }
  split.
  { intros l1 r l2 -> Hr.
    rewrite allConnections_app, allConnections_cons.
    by rewrite flattenSource_other by by apply isExpandedGroup_non_group. }
  intros options. split.
  { by rewrite <-selectConnectionAt_erase, allConnectionsFrom_erase. }
  intros p r Hsel. apply selectConnectionAt_place in Hsel as [Hat Htop].
  split; [|done]. intros ->.
  specialize (Htop (length pre) g eq_refl).
  rewrite list_lookup_middle in Htop by done.
  specialize (Htop eq_refl). unfold isExpandedGroup in Htop.
  by rewrite Hgroup, Hconfigs in Htop.
Qed.

Lemma flatten_replaces_group_by_children_witness :
  allConnections [staging; sandboxes; prod] = [staging; dev1; dev2; prod]
  /\ selectConnection {| instance := None |}
       (allConnections [staging; sandboxes; prod]) = Some dev2.
Proof.
  pose proof (flatten_replaces_group_by_children
                [staging] [prod] sandboxes [dev1; dev2] 2
                eq_refl eq_refl eq_refl) as (Hflat & _ & _ & _).
  split; [exact Hflat|]. reflexivity.
Defined.

(** ** Selection *)

Lemma truthy_bool_false_iff (b : option bool) :
  truthy_bool b = false <-> b ≠ Some true.
Proof. destruct b as [[]|]; simpl; split; congruence. Qed.

Lemma truthy_bool_true_iff (b : option bool) :
  truthy_bool b = true <-> b = Some true.
Proof. destruct b as [[]|]; simpl; split; congruence. Qed.

Lemma truthy_string_true_iff (s : option string) :
  truthy_string s = true <-> exists v, s = Some v /\ v ≠ "".
Proof.
  destruct s as [v|]; simpl.
  - rewrite negb_true_iff, String.eqb_neq. split.
    + intros Hv. by exists v.
    + by intros (? & [= <-] & Hv).
  - split; [done|]. by intros (? & ? & _).
Qed.

Lemma truthy_string_Some (v : string) :
  v ≠ "" -> truthy_string (Some v) = true.
Proof. intros Hv. apply truthy_string_true_iff. by exists v. Qed.

(** C5, as the source has it. For every list of flattened connections
    and every non-empty instance name: selection returns a record exactly
    when it is the first record of the list whose name equals the given
    name, and returns absent exactly when no record has that name; the
    [active] flags play no part. *)
Theorem select_by_name_first_exact_match
    (connections : list IntellijConnection) (name : string) :
  name ≠ "" ->
  (forall r,
     selectConnection {| instance := Some name |} connections = Some r <->
     exists before after,
       connections = before ++ r :: after /\
       conn_name r = Some name /\
       Forall (fun c => conn_name c ≠ Some name) before)
  /\ (selectConnection {| instance := Some name |} connections = None <->
      Forall (fun c => conn_name c ≠ Some name) connections).
Proof.
  intros Hname. unfold selectConnection. cbn [instance].
  rewrite (truthy_string_Some name Hname). split.
  - intros r. rewrite find_Some_first.
    setoid_rewrite bool_decide_eq_true.
    by setoid_rewrite bool_decide_eq_false.
  - rewrite find_None_all. by setoid_rewrite bool_decide_eq_false.
Qed.

Lemma select_by_name_first_exact_match_witness :
  selectConnection {| instance := Some "unknown" |} [staging; prod] = None.
Proof.
  apply (select_by_name_first_exact_match [staging; prod] "unknown"); [done|].
  repeat constructor; discriminate.
Defined.

(** C5, as stated, fails at the empty name: the list holds a record
    named [""], and selection with the name [""] returns the active record
    instead of it. *)
Lemma select_by_empty_name_counterexample :
  find (fun c => bool_decide (conn_name c = Some "")) [unnamed; prod] = Some unnamed
  /\ selectConnection {| instance := Some "" |} [unnamed; prod] = Some prod
  /\ ~ (forall (connections : list IntellijConnection) (name : string),
          selectConnection {| instance := Some name |} connections
          = find (fun c => bool_decide (conn_name c = Some name)) connections).
Proof.
  split; [reflexivity|]. split; [reflexivity|].
  intros H. specialize (H [unnamed; prod] "").
  vm_compute in H. discriminate H.
Qed.

(** C6. For every list of flattened connections, when no instance name
    is given: selection returns a record exactly when it is the first
    record of the list with [active = true], so that the earliest of
    several active records wins, and returns absent exactly when no record
    is active. *)
Theorem select_active_first
    (connections : list IntellijConnection) :
  (forall r,
     selectConnection {| instance := None |} connections = Some r <->
     exists before after,
       connections = before ++ r :: after /\
       conn_active r = Some true /\
       Forall (fun c => conn_active c ≠ Some true) before)
  /\ (selectConnection {| instance := None |} connections = None <->
      Forall (fun c => conn_active c ≠ Some true) connections)
  /\ (forall before r after,
        connections = before ++ r :: after ->
        conn_active r = Some true ->
        Forall (fun c => conn_active c ≠ Some true) before ->
        selectConnection {| instance := None |} connections = Some r).
Proof.
  unfold selectConnection. simpl.
  assert (forall r,
    find (fun c => truthy_bool (conn_active c)) connections = Some r <->
    exists before after,
      connections = before ++ r :: after /\
      conn_active r = Some true /\
      Forall (fun c => conn_active c ≠ Some true) before) as Hfirst.
  { intros r. rewrite find_Some_first.
    setoid_rewrite truthy_bool_true_iff.
    by setoid_rewrite truthy_bool_false_iff. }
  split; [done|]. split.
  - rewrite find_None_all. by setoid_rewrite truthy_bool_false_iff.
  - intros before r after ? ? ?. apply Hfirst. by exists before, after.
Qed.

(** C10. A call of [load] with the instance selector [""] is the same as
    a call with no selector, in every environment: same new state, same
    completion. On every flattened list the selection made for [""] is the
    first record with [active = true], also when a record named [""]
    comes first. *)
Theorem load_empty_instance_is_no_instance
    (E : Env) (this : IntelliJSource) :
  load E this {| instance := Some "" |} = load E this {| instance := None |}
  /\ (forall connections,
        selectConnection {| instance := Some "" |} connections
        = find (fun c => truthy_bool (conn_active c)) connections)
  /\ selectConnection {| instance := Some "" |} [unnamed; prod] = Some prod.
Proof.
  split; [|split].
  - unfold load. by f_equal.
  - intros connections. unfold selectConnection. by cbn [instance truthy_string].
  - reflexivity.
Qed.

(** ** Password lookup *)

Lemma firstAccount_find (credentials : Credentials) (username : string)
    (account : Account) :
  firstAccount credentials username account <->
  find (fun a => bool_decide (acct_username a = username)) (accounts credentials)
  = Some account.
Proof.
  unfold firstAccount. rewrite find_Some_first.
  setoid_rewrite bool_decide_eq_true.
  by setoid_rewrite bool_decide_eq_false.
Qed.

Lemma firstAccessKeySet_find (account : Account) (username : string)
    (aks : AccessKeySet) :
  firstAccessKeySet account username aks <->
  acct_accessKeys account ≫=
    find (fun ak => bool_decide (ak_username ak = username)) = Some aks.
Proof.
  unfold firstAccessKeySet. destruct (acct_accessKeys account) as [keysets|]; simpl.
  - rewrite find_Some_first.
    setoid_rewrite bool_decide_eq_true.
    setoid_rewrite bool_decide_eq_false. split.
    + intros (? & before & after & [= <-] & ?). by exists before, after.
    + intros (before & after & ?). by exists keysets, before, after.
  - split; [|done]. by intros (? & ? & ? & ? & _).
Qed.

Lemma no_firstAccessKeySet (account : Account) (username : string) :
  (forall aks, ~ firstAccessKeySet account username aks) <->
  acct_accessKeys account ≫=
    find (fun ak => bool_decide (ak_username ak = username)) = None.
Proof.
  split.
  - intros Hnone.
    destruct (acct_accessKeys account ≫= _) as [aks|] eqn:Hfind; [|done].
    by apply firstAccessKeySet_find, Hnone in Hfind.
  - intros Hfind aks Haks%firstAccessKeySet_find. congruence.
Qed.

(** C4, as the source has it. When the first account of the store whose
    user name matches has, as its first access key set whose user name
    matches, one whose key mapping for the host name holds a non-empty
    ["WebDAV"] entry, [findPassword] returns that entry, whatever the plain
    password of the account is. *)
Theorem findPassword_prefers_webdav_key
    (credentials : Credentials) (username hostname : string)
    (account : Account) (aks : AccessKeySet)
    (hostKeys : gmap string string) (key : string) :
  firstAccount credentials username account ->
  firstAccessKeySet account username aks ->
  ak_keys aks !! hostname = Some hostKeys ->
  hostKeys !! "WebDAV" = Some key ->
  key ≠ "" ->
  findPassword credentials username hostname = Some key.
Proof.
  intros Hacc%firstAccount_find Haks%firstAccessKeySet_find Hhost Hkey Hne.
  unfold findPassword. rewrite Hacc. cbv zeta. rewrite Haks, Hhost. simpl.
  by rewrite Hkey, (truthy_string_Some key Hne).
Qed.

Lemma findPassword_prefers_webdav_key_witness :
  findPassword sampleCredentials "u1" "h1" = Some "secret1".
Proof.
  apply (findPassword_prefers_webdav_key sampleCredentials "u1" "h1"
           sampleAccount
           {| ak_username := "u1";
              ak_keys := {[ "h1" := {[ "WebDAV" := "secret1" ]} ]} |}
           {[ "WebDAV" := "secret1" ]} "secret1").
  - exists [plainAccount], [].
    split; [reflexivity|]. split; [reflexivity|].
    repeat constructor; discriminate.
  - exists [ {| ak_username := "u1";
                ak_keys := {[ "h1" := {[ "WebDAV" := "secret1" ]} ]} |} ], [], [].
    split; [reflexivity|]. split; [reflexivity|]. split; [reflexivity|].
    constructor.
  - reflexivity.
  - reflexivity.
  - discriminate.
Defined.

(** C4, as stated, fails when the ["WebDAV"] entry is the empty string:
    the account matches, its access key set matches and holds a ["WebDAV"]
    entry for the host, and [findPassword] returns the plain password. *)
Lemma findPassword_empty_webdav_counterexample :
  findPassword emptyKeyCredentials "u1" "h1" = Some "secret2"
  /\ ~ (forall (credentials : Credentials) (username hostname : string)
           (account : Account) (keysets : list AccessKeySet)
           (aks : AccessKeySet) (hostKeys : gmap string string) (value : string),
          account ∈ accounts credentials ->
          acct_username account = username ->
          acct_accessKeys account = Some keysets ->
          aks ∈ keysets ->
          ak_username aks = username ->
          ak_keys aks !! hostname = Some hostKeys ->
          hostKeys !! "WebDAV" = Some value ->
          findPassword credentials username hostname = Some value).
Proof.
  split; [reflexivity|]. intros H.
  specialize (H emptyKeyCredentials "u1" "h1" emptyKeyAccount
                [ {| ak_username := "u1";
                     ak_keys := {[ "h1" := {[ "WebDAV" := "" ]} ]} |} ]
                {| ak_username := "u1";
                   ak_keys := {[ "h1" := {[ "WebDAV" := "" ]} ]} |}
                {[ "WebDAV" := "" ]} "").
  assert (findPassword emptyKeyCredentials "u1" "h1" = Some "") as Hbad.
  { apply H; try reflexivity; apply list_elem_of_here. }
  vm_compute in Hbad. discriminate Hbad.
Qed.

(** C7. [findPassword] returns absent when no account of the store has
    the user name. When an account has it, the first such account decides:
    if no non-empty ["WebDAV"] entry for the host is found through its
    first access key set with that user name, the result is that account's
    plain password field, absent when the field is absent; so an account
    with a plain password and no access keys yields the plain password. *)
Theorem findPassword_falls_back_to_password
    (credentials : Credentials) (username hostname : string) :
  (Forall (fun a => acct_username a ≠ username) (accounts credentials) ->
   findPassword credentials username hostname = None)
  /\ (forall account,
        firstAccount credentials username account ->
        (forall aks hostKeys key,
           firstAccessKeySet account username aks ->
           ak_keys aks !! hostname = Some hostKeys ->
           hostKeys !! "WebDAV" = Some key ->
           key = "") ->
        findPassword credentials username hostname = acct_password account)
  /\ (forall account,
        firstAccount credentials username account ->
        acct_accessKeys account = None \/ acct_accessKeys account = Some [] ->
        findPassword credentials username hostname = acct_password account).
Proof.
  assert (forall account,
    firstAccount credentials username account ->
    (forall aks hostKeys key,
       firstAccessKeySet account username aks ->
       ak_keys aks !! hostname = Some hostKeys ->
       hostKeys !! "WebDAV" = Some key ->
       key = "") ->
    findPassword credentials username hostname = acct_password account) as Hfall.
  { intros account Hacc%firstAccount_find Hnokey.
    unfold findPassword. rewrite Hacc. cbv zeta.
    destruct (acct_accessKeys account ≫= _) as [aks|] eqn:Haks; [|done].
    apply firstAccessKeySet_find in Haks.
    destruct (truthy_string _) eqn:Htruthy; [|done].
    apply truthy_string_true_iff in Htruthy as (key & Hkey & Hne).
    destruct (ak_keys aks !! hostname) as [hostKeys|] eqn:Hhost; [|done].
    simpl in Hkey. by specialize (Hnokey aks hostKeys key Haks Hhost Hkey). }
  split; [|split].
  - intros Hnone. unfold findPassword.
    replace (find _ (accounts credentials)) with (@None Account); [done|].
    symmetry. apply find_None_all.
    eapply Forall_impl; [exact Hnone|]. intros a Ha. by apply bool_decide_eq_false.
  - exact Hfall.
  - intros account Hacc Hkeys. apply Hfall; [done|].
    intros aks hostKeys key (keysets & before & after & Hsome & Heq & _) _ _.
    destruct Hkeys as [Hk|Hk]; rewrite Hk in Hsome; [done|].
    injection Hsome as <-. by destruct before.
Qed.

Lemma findPassword_falls_back_to_password_witness :
  findPassword sampleCredentials "u0" "h0" = Some "secret0".
Proof.
  apply (proj2 (proj2 (findPassword_falls_back_to_password
                         sampleCredentials "u0" "h0")) plainAccount).
  - exists [], [sampleAccount].
    split; [reflexivity|]. split; [reflexivity|]. constructor.
  - left. reflexivity.
Defined.

(** ** Credential vault *)

(** C3. For every cipher text, key and algorithm identifier, and whatever
    the base64 decoder, the cipher and the JSON parser do,
    [decryptCredentials] completes normally: it returns the parsed store
    exactly when every step succeeded, and absent as soon as one step
    raises (the decoding, the creation of the cipher for this algorithm and
    key, the decryption of the bytes, the final block with its padding, the
    JSON parse); no exception leaves it. *)
Theorem decryptCredentials_store_or_absent
    (E : Env) (cipherText key algorithm : string) :
  (exists r, decryptCredentials E cipherText key algorithm = Normal r)
  /\ (forall e, decryptCredentials E cipherText key algorithm ≠ Throw e)
  /\ (forall credentials,
        decryptCredentials E cipherText key algorithm = Normal (Some credentials)
        <->
        exists buffer decipher decipher' updated final,
          Buffer_from_base64 E cipherText = Normal buffer /\
          createDecipheriv E algorithm key = Normal decipher /\
          decipher_update E decipher buffer = Normal (decipher', updated) /\
          decipher_final E decipher' = Normal final /\
          JSON_parse_Credentials E (Buffer_toString_utf8 E (updated ++ final))
          = Normal credentials)
  /\ (forall e, Buffer_from_base64 E cipherText = Throw e ->
        decryptCredentials E cipherText key algorithm = Normal None)
  /\ (forall e, createDecipheriv E algorithm key = Throw e ->
        decryptCredentials E cipherText key algorithm = Normal None)
  /\ (forall buffer decipher e,
        Buffer_from_base64 E cipherText = Normal buffer ->
        createDecipheriv E algorithm key = Normal decipher ->
        decipher_update E decipher buffer = Throw e ->
        decryptCredentials E cipherText key algorithm = Normal None)
  /\ (forall buffer decipher decipher' updated e,
        Buffer_from_base64 E cipherText = Normal buffer ->
        createDecipheriv E algorithm key = Normal decipher ->
        decipher_update E decipher buffer = Normal (decipher', updated) ->
        decipher_final E decipher' = Throw e ->
        decryptCredentials E cipherText key algorithm = Normal None)
  /\ (forall buffer decipher decipher' updated final e,
        Buffer_from_base64 E cipherText = Normal buffer ->
        createDecipheriv E algorithm key = Normal decipher ->
        decipher_update E decipher buffer = Normal (decipher', updated) ->
        decipher_final E decipher' = Normal final ->
        JSON_parse_Credentials E (Buffer_toString_utf8 E (updated ++ final))
        = Throw e ->
        decryptCredentials E cipherText key algorithm = Normal None).
Proof.
  unfold decryptCredentials, try_catch, bind.
  destruct (Buffer_from_base64 E cipherText) as [buffer|e0] eqn:Hb;
    [|by settle_stages].
  destruct (createDecipheriv E algorithm key) as [decipher|e1] eqn:Hc;
    [|by settle_stages].
  destruct (decipher_update E decipher buffer) as [[decipher' updated]|e2] eqn:Hu;
    [|by settle_stages].
  destruct (decipher_final E decipher') as [final|e3] eqn:Hf;
    [|by settle_stages].
  destruct (JSON_parse_Credentials E _) as [credentials|e4] eqn:Hj;
    by settle_stages.
Qed.

(** ** Settings extractor *)

(** A missing file gives absent. *)
Lemma getConnectionSettings_missing_file (E : Env) (filename : string) :
  existsSync E filename = false ->
  getConnectionSettings E filename = Normal None.
Proof. unfold getConnectionSettings. by intros ->. Qed.

(** X6. Once the file is read and the parser has returned a document, the
    extractor completes normally: absent when the document has no
    [project] element, when the project has no component named
    [IntellijSFCCConnectionSettings], when the component has no option named
    [json] with a non-empty value, or when the value is not JSON; the
    parsed settings otherwise. *)
Lemma getConnectionSettings_parsed_document
    (E : Env) (filename content : string) (xml : list XmlNode) :
  existsSync E filename = true ->
  readFileSync E filename = Normal content ->
  XMLParser_parse E content = Normal xml ->
  (exists r, getConnectionSettings E filename = Normal r)
  /\ (Forall (fun el => project el = None) xml ->
      getConnectionSettings E filename = Normal None)
  /\ (forall projectEl projectChildren,
        find (fun el => truthy_object (project el)) xml = Some projectEl ->
        project projectEl = Some projectChildren ->
        (Forall (fun el => component el = None \/
                           pc_attrs el ≫= cattr_name
                           ≠ Some "IntellijSFCCConnectionSettings")
                projectChildren ->
         getConnectionSettings E filename = Normal None)
        /\ forall componentEl options,
             find (fun el =>
                     truthy_object (component el) &&
                     bool_decide (pc_attrs el ≫= cattr_name
                                  = Some "IntellijSFCCConnectionSettings"))
                  projectChildren = Some componentEl ->
             component componentEl = Some options ->
             (Forall (fun opt => opt_attrs opt ≫= oattr_name ≠ Some "json")
                     options ->
              getConnectionSettings E filename = Normal None)
             /\ forall jsonOption,
                  find (fun opt =>
                          bool_decide (opt_attrs opt ≫= oattr_name = Some "json"))
                       options = Some jsonOption ->
                  (opt_attrs jsonOption ≫= oattr_value = None ->
                   getConnectionSettings E filename = Normal None)
                  /\ (opt_attrs jsonOption ≫= oattr_value = Some "" ->
                      getConnectionSettings E filename = Normal None)
                  /\ forall jsonText,
                       opt_attrs jsonOption ≫= oattr_value = Some jsonText ->
                       jsonText ≠ "" ->
                       (forall e, JSON_parse_ConnectionSettings E jsonText = Throw e ->
                                  getConnectionSettings E filename = Normal None)
                       /\ (forall settings,
                             JSON_parse_ConnectionSettings E jsonText = Normal settings ->
                             getConnectionSettings E filename
                             = Normal (Some settings))).
Proof.
  intros Hexists Hread Hparse.
  unfold getConnectionSettings. rewrite Hexists, Hread. simpl. rewrite Hparse. simpl.
  split.
  { repeat (case_match; simpl; eauto).
    unfold try_catch, bind. case_match; eauto. }
  split.
  { intros Hnone.
    replace (find _ xml) with (@None XmlNode); [done|].
    symmetry. apply find_None_all. eapply Forall_impl; [exact Hnone|].
    by intros el ->. }
  intros projectEl projectChildren -> Hproject. simpl. rewrite Hproject. split.
  { intros Hnone.
    replace (find _ projectChildren) with (@None XmlProjectChild); [done|].
    symmetry. apply find_None_all. eapply Forall_impl; [exact Hnone|].
    intros el [->|Hname]; [done|].
    apply andb_false_iff. right. by apply bool_decide_eq_false. }
  intros componentEl options -> Hcomponent. simpl. rewrite Hcomponent. split.
  { intros Hnone.
    replace (find _ options) with (@None XmlOption); [done|].
    symmetry. apply find_None_all. eapply Forall_impl; [exact Hnone|].
    intros opt Hopt. by apply bool_decide_eq_false. }
  intros jsonOption ->. simpl.
  split; [by intros ->|]. split; [by intros ->|].
  intros jsonText -> Hne. rewrite (truthy_string_Some jsonText Hne).
  split.
  - by intros e ->.
  - by intros settings ->.
Qed.

(** C2, what the source does where the claim fails. The read of the file
    and the call of the XML parser are outside any [try]: when the file
    exists and the parser raises on its content, [getConnectionSettings]
    raises the same exception instead of returning absent. *)
Theorem getConnectionSettings_parser_exception_escapes
    (E : Env) (filename content : string) (e : exn) :
  existsSync E filename = true ->
  readFileSync E filename = Normal content ->
  XMLParser_parse E content = Throw e ->
  getConnectionSettings E filename = Throw e.
Proof.
  intros Hexists Hread Hparse.
  unfold getConnectionSettings. rewrite Hexists, Hread. simpl. by rewrite Hparse.
Qed.

Lemma getConnectionSettings_parser_exception_escapes_witness :
  getConnectionSettings brokenEnv "misc.xml"
  = Throw (Error "Comment is not closed.").
Proof.
  apply (getConnectionSettings_parser_exception_escapes
           brokenEnv "misc.xml" "<!--" (Error "Comment is not closed."));
    reflexivity.
Defined.

Lemma getConnectionSettings_normal_after_parse
    (E : Env) (filename content : string) (xml : list XmlNode) :
  existsSync E filename = true ->
  readFileSync E filename = Normal content ->
  XMLParser_parse E content = Normal xml ->
  exists r, getConnectionSettings E filename = Normal r.
Proof.
  intros Hexists Hread Hparse.
  unfold getConnectionSettings. rewrite Hexists, Hread. simpl. rewrite Hparse. simpl.
  repeat (case_match; simpl; eauto).
  unfold try_catch, bind. case_match; eauto.
Qed.

(** X7. An exception leaves the extractor exactly when the file exists
    and either the read or the XML parser raises it. *)
Lemma getConnectionSettings_throws_iff (E : Env) (filename : string) (e : exn) :
  getConnectionSettings E filename = Throw e <->
  existsSync E filename = true /\
  (readFileSync E filename = Throw e \/
   exists content,
     readFileSync E filename = Normal content /\
     XMLParser_parse E content = Throw e).
Proof.
  destruct (existsSync E filename) eqn:Hexists.
  2:{ rewrite getConnectionSettings_missing_file by done. by split; [|intros []]. }
  destruct (readFileSync E filename) as [content|e1] eqn:Hread.
  2:{ unfold getConnectionSettings. rewrite Hexists, Hread. simpl. split.
      - intros [= ->]. split; [done|]. by left.
      - intros [_ [[= ->]|(? & ? & _)]]; done. }
  destruct (XMLParser_parse E content) as [xml|e2] eqn:Hparse.
  - destruct (getConnectionSettings_normal_after_parse E filename content xml)
      as [r ->]; try done.
    split; [done|]. intros [_ [?|(c & [= <-] & ?)]]; congruence.
  - unfold getConnectionSettings. rewrite Hexists, Hread. simpl. rewrite Hparse.
    simpl. split.
    + intros [= ->]. split; [done|]. right. by exists content.
    + intros [_ [?|(c & [= <-] & ?)]]; congruence.
Qed.

(** ** Config assembler *)

Lemma withPassword_clientId (credentials : Credentials)
    (connection : IntellijConnection) (config : NormalizedConfig) :
  cfg_clientId (withPassword credentials connection config) = cfg_clientId config.
Proof. unfold withPassword. by repeat case_match. Qed.

Lemma withClientSecret_clientId (credentials : Credentials)
    (config : NormalizedConfig) :
  cfg_clientId (withClientSecret credentials config) = cfg_clientId config.
Proof. unfold withClientSecret. by repeat case_match. Qed.

Lemma withClientId_iff (connection : IntellijConnection) (v : string) :
  cfg_clientId (withClientId connection (baseConfig connection)) = Some v <->
  conn_useOcapi connection = Some true /\
  conn_clientId connection = Some v /\ v ≠ "".
Proof.
  unfold withClientId.
  destruct (truthy_bool _ && truthy_string _) eqn:Hguard; simpl.
  - apply andb_true_iff in Hguard as [Hocapi%truthy_bool_true_iff Hid].
    apply truthy_string_true_iff in Hid as (w & Hw & Hne).
    rewrite Hw. split.
    + by intros [= <-].
    + by intros (_ & ? & _).
  - split; [done|]. intros (Hocapi & Hid & Hne).
    rewrite Hocapi, Hid, (truthy_string_Some v Hne) in Hguard. done.
Qed.

Lemma withPassword_secrets (credentials : Credentials)
    (connection : IntellijConnection) (config : NormalizedConfig) :
  secretsNonEmpty config ->
  secretsNonEmpty (withPassword credentials connection config).
Proof.
  intros [Hp Hs]. unfold withPassword.
  repeat case_match; try done.
  split; [|done]. simpl. intros password Heq.
  match goal with
  | H : truthy_string (findPassword _ _ _) = true |- _ =>
      apply truthy_string_true_iff in H as (w & Hw & Hne)
  end.
  congruence.
Qed.

Lemma withClientSecret_secrets (credentials : Credentials)
    (config : NormalizedConfig) :
  secretsNonEmpty config ->
  secretsNonEmpty (withClientSecret credentials config).
Proof.
  intros [Hp Hs]. unfold withClientSecret.
  repeat case_match; try done.
  split; [done|]. simpl. intros clientSecret Heq.
  match goal with
  | H : truthy_string (findClientSecret _ _) = true |- _ =>
      apply truthy_string_true_iff in H as (w & Hw & Hne)
  end.
  congruence.
Qed.

(** What [loadCredentials] can return: the config it was given, or that
    config after the two lookups in a decrypted store. *)
Lemma loadCredentials_inv (E : Env) (connection : IntellijConnection)
    (config config' : NormalizedConfig) :
  loadCredentials E connection config = Normal config' ->
  config' = config \/
  exists credentials,
    config' = withClientSecret credentials
                (withPassword credentials connection config).
Proof.
  unfold loadCredentials, bind.
  repeat case_match; intros [= <-]; eauto.
Qed.

(** A completed [load] went through a parsed settings value, a selected
    connection and [loadCredentials]. *)
Lemma load_inv (E : Env) (this : IntelliJSource) (options : ResolveConfigOptions)
    (config : NormalizedConfig) :
  (load E this options).2 = Normal (Some config) ->
  exists settings connection,
    getConnectionSettings E (projectFile E) = Normal (Some settings) /\
    selectConnection options (allConnections (source settings)) = Some connection /\
    loadCredentials E connection (withClientId connection (baseConfig connection))
    = Normal config.
Proof.
  unfold load, bind. simpl.
  destruct (getConnectionSettings E _) as [[settings|]|] eqn:Hsettings; try done.
  destruct (length (source settings) =? 0)%nat; [done|].
  destruct (selectConnection options _) as [connection|] eqn:Hsel; [|done].
  destruct (loadCredentials E connection _) as [config'|] eqn:Hcred; [|done].
  intros [= <-]. by exists settings, connection.
Qed.

(** C8. Whenever [load] returns a config, it was assembled from the
    connection that selection resolved in the parsed settings, and its
    [clientId] is set to a value exactly when that connection has
    [useOcapi = true] and that value, non-empty, as its [clientId];
    otherwise the field is absent. *)
Theorem clientId_present_iff_ocapi_and_clientId
    (E : Env) (this : IntelliJSource) (options : ResolveConfigOptions)
    (config : NormalizedConfig) :
  (load E this options).2 = Normal (Some config) ->
  exists settings connection,
    getConnectionSettings E (projectFile E) = Normal (Some settings) /\
    selectConnection options (allConnections (source settings)) = Some connection /\
    (forall v,
       cfg_clientId config = Some v <->
       conn_useOcapi connection = Some true /\
       conn_clientId connection = Some v /\ v ≠ "") /\
    (cfg_clientId config = None <->
     ~ (conn_useOcapi connection = Some true /\
        exists v, conn_clientId connection = Some v /\ v ≠ "")).
Proof.
  intros (settings & connection & Hsettings & Hsel & Hcred)%load_inv.
  exists settings, connection. split; [done|]. split; [done|].
  assert (cfg_clientId config
          = cfg_clientId (withClientId connection (baseConfig connection))) as Hid.
  { apply loadCredentials_inv in Hcred as [->|[credentials ->]]; [done|].
    by rewrite withClientSecret_clientId, withPassword_clientId. }
  rewrite Hid. split; [apply withClientId_iff|].
  destruct (cfg_clientId (withClientId _ _)) as [w|] eqn:Hw.
  - apply withClientId_iff in Hw as (? & ? & ?).
    split; [done|]. intros Hnot. exfalso. apply Hnot. eauto.
  - split; [|done]. intros _ (Hocapi & v & Hv & Hne).
    assert (cfg_clientId (withClientId connection (baseConfig connection)) = Some v)
      as Hsome by by apply withClientId_iff.
    congruence.
Qed.

Lemma clientId_present_iff_ocapi_and_clientId_witness :
  exists settings connection,
    getConnectionSettings sampleEnv (projectFile sampleEnv)
    = Normal (Some settings) /\
    selectConnection {| instance := None |} (allConnections (source settings))
    = Some connection /\
    (forall v,
       Some "client1" = Some v <->
       conn_useOcapi connection = Some true /\
       conn_clientId connection = Some v /\ v ≠ "") /\
    (Some "client1" = None <->
     ~ (conn_useOcapi connection = Some true /\
        exists v, conn_clientId connection = Some v /\ v ≠ "")).
Proof.
  apply (clientId_present_iff_ocapi_and_clientId sampleEnv freshSource
           {| instance := None |}
           {| cfg_hostname := Some "h1";
              cfg_webdavHostname := None;
              cfg_username := Some "u1";
              cfg_codeVersion := Some "version1";
              cfg_shortCode := None;
              cfg_clientId := Some "client1";
              cfg_password := Some "secret1";
              cfg_clientSecret := Some "clientsecret1" |}).
  vm_compute. reflexivity.
Defined.

(** C9. In every config that [load] returns, a [password] that is set is
    a non-empty string and a [clientSecret] that is set is a non-empty
    string: a lookup that gives the empty string leaves the field absent. *)
Theorem load_secrets_non_empty
    (E : Env) (this : IntelliJSource) (options : ResolveConfigOptions)
    (config : NormalizedConfig) :
  (load E this options).2 = Normal (Some config) ->
  (forall password, cfg_password config = Some password -> password ≠ "")
  /\ (forall clientSecret,
        cfg_clientSecret config = Some clientSecret -> clientSecret ≠ "")
  /\ cfg_password config ≠ Some ""
  /\ cfg_clientSecret config ≠ Some "".
Proof.
  intros (settings & connection & _ & _ & Hcred)%load_inv.
  assert (secretsNonEmpty config) as [Hp Hs].
  { assert (secretsNonEmpty (withClientId connection (baseConfig connection)))
      as Hbase.
    { unfold withClientId. by case_match. }
    apply loadCredentials_inv in Hcred as [->|[credentials ->]]; [done|].
    by apply withClientSecret_secrets, withPassword_secrets. }
  split; [done|]. split; [done|]. split.
  - intros Heq. by apply Hp in Heq.
  - intros Heq. by apply Hs in Heq.
Qed.

Lemma load_secrets_non_empty_witness :
  (forall password, Some "secret1" = Some password -> password ≠ "")
  /\ (forall clientSecret,
        Some "clientsecret1" = Some clientSecret -> clientSecret ≠ "")
  /\ Some "secret1" ≠ Some ""
  /\ Some "clientsecret1" ≠ Some "".
Proof.
  apply (load_secrets_non_empty sampleEnv freshSource {| instance := None |}
           {| cfg_hostname := Some "h1";
              cfg_webdavHostname := None;
              cfg_username := Some "u1";
              cfg_codeVersion := Some "version1";
              cfg_shortCode := None;
              cfg_clientId := Some "client1";
              cfg_password := Some "secret1";
              cfg_clientSecret := Some "clientsecret1" |}).
  vm_compute. reflexivity.
Defined.

(** A store whose only password for the user is the empty string leaves
    [password] unset. *)
Example withPassword_empty_string :
  cfg_password
    (withPassword
       {| accounts := [ {| acct_username := "u1";
                           acct_password := Some "";
                           acct_hidePassword := None;
                           acct_accessKeys := None |} ];
          ocapiKeys := [] |}
       prod (baseConfig prod))
  = None.
Proof. reflexivity. Qed.

(** A group without [configs] is not expanded: it stays in the flattened
    list. *)
Example flatten_group_without_configs :
  let empty := {| conn_name := Some "empty";
                  conn_hostname := None;
                  conn_secureHostname := None;
                  conn_username := None;
                  conn_code_version := None;
                  conn_clientId := None;
                  conn_shortCode := None;
                  conn_useOcapi := None;
                  conn_active := None;
                  conn_isGroup := Some true;
                  conn_configs := None |} in
  allConnections [staging; empty] = [staging; empty].
Proof. reflexivity. Qed.

(** * Further properties of the source *)

(** ** Client secret lookup *)

(** X1. [findClientSecret] returns a secret exactly when it is the
    [clientSecret] of the first entry of [ocapiKeys] whose [clientId] equals
    the given one, and absent exactly when no entry has that [clientId]. *)
Theorem findClientSecret_first_match
    (credentials : Credentials) (clientId : string) :
  (forall secret,
     findClientSecret credentials clientId = Some secret <->
     exists before k after,
       ocapiKeys credentials = before ++ k :: after /\
       ocapi_clientId k = clientId /\
       ocapi_clientSecret k = secret /\
       Forall (fun k' => ocapi_clientId k' ≠ clientId) before)
  /\ (findClientSecret credentials clientId = None <->
      Forall (fun k => ocapi_clientId k ≠ clientId) (ocapiKeys credentials)).
Proof.
  unfold findClientSecret. split.
  - intros secret. rewrite fmap_Some. split.
    + intros (k & Hfind & ->).
      apply find_Some_first in Hfind as (before & after & Heq & Hk & Hbefore).
      exists before, k, after. split; [done|].
      apply bool_decide_eq_true in Hk. split; [done|]. split; [done|].
      eapply Forall_impl; [exact Hbefore|].
      intros k' Hk'. by apply bool_decide_eq_false in Hk'.
    + intros (before & k & after & Heq & Hk & Hsecret & Hbefore).
      exists k. split; [|done]. apply find_Some_first.
      exists before, after. split; [done|]. split.
      * by apply bool_decide_eq_true.
      * eapply Forall_impl; [exact Hbefore|].
        intros k' Hk'. by apply bool_decide_eq_false.
  - rewrite fmap_None, find_None_all.
    by setoid_rewrite bool_decide_eq_false.
Qed.

(** ** Where a password comes from *)

(** X2. A password that [findPassword] returns always belongs to an
    account of the store with the requested user name: it is that
    account's plain password, or a non-empty ["WebDAV"] entry for the
    requested host in one of that account's access key sets with the same
    user name. Nothing of another user or another host is returned. *)
Theorem findPassword_provenance
    (credentials : Credentials) (username hostname password : string) :
  findPassword credentials username hostname = Some password ->
  exists account,
    account ∈ accounts credentials /\
    acct_username account = username /\
    (acct_password account = Some password \/
     exists keysets aks hostKeys,
       acct_accessKeys account = Some keysets /\
       aks ∈ keysets /\
       ak_username aks = username /\
       ak_keys aks !! hostname = Some hostKeys /\
       hostKeys !! "WebDAV" = Some password /\
       password ≠ "").
Proof.
  unfold findPassword.
  destruct (find _ (accounts credentials)) as [account|] eqn:Hacc; [|done].
  apply find_elem_of in Hacc as [Hin Huser%bool_decide_eq_true].
  cbv zeta. intros Hres. exists account. split; [done|]. split; [done|].
  destruct (acct_accessKeys account) as [keysets|] eqn:Hkeysets; simpl in Hres;
    [|by left].
  destruct (find _ keysets) as [aks|] eqn:Haks; [|by left].
  apply find_elem_of in Haks as [Haksin Haksuser%bool_decide_eq_true].
  destruct (truthy_string _) eqn:Htruthy; [|by left].
  apply truthy_string_true_iff in Htruthy as (key & Hkey & Hne).
  rewrite Hkey in Hres. injection Hres as <-.
  destruct (ak_keys aks !! hostname) as [hostKeys|] eqn:Hhost; [|done].
  right. by exists keysets, aks, hostKeys.
Qed.

Lemma findPassword_provenance_witness :
  exists account,
    account ∈ accounts sampleCredentials /\
    acct_username account = "u1" /\
    (acct_password account = Some "secret1" \/
     exists keysets aks hostKeys,
       acct_accessKeys account = Some keysets /\
       aks ∈ keysets /\
       ak_username aks = "u1" /\
       ak_keys aks !! "h1" = Some hostKeys /\
       hostKeys !! "WebDAV" = Some "secret1" /\
       "secret1" ≠ "").
Proof.
  apply (findPassword_provenance sampleCredentials "u1" "h1" "secret1").
  vm_compute. reflexivity.
Defined.

(** ** Flattening, one level deep *)

Lemma elem_of_flattenSource (r s : IntellijConnection) :
  r ∈ flattenSource s <->
  (r = s /\ isExpandedGroup s = false) \/
  (exists children,
     isExpandedGroup s = true /\ conn_configs s = Some children /\ r ∈ children).
Proof.
  unfold flattenSource. fold (isExpandedGroup s).
  destruct (isExpandedGroup s) eqn:Hs.
  - unfold isExpandedGroup in Hs.
    destruct (conn_configs s) as [children|] eqn:Hc;
      [|by rewrite andb_false_r in Hs].
    simpl. split.
    + intros Hin. right. by exists children.
    + intros [[_ ?]|(? & _ & [= <-] & Hin)]; done.
  - rewrite list_elem_of_singleton. split.
    + intros ->. by left.
    + intros [[-> _]|(? & ? & _)]; done.
Qed.

(** X3. A record is in the flattened list exactly when it is a top-level
    record that is not a group with [configs], or a direct child of a
    top-level group with [configs]. Flattening goes one level deep: the
    children of a child never appear on their own account. *)
Theorem allConnections_one_level
    (source : list IntellijConnection) (r : IntellijConnection) :
  r ∈ allConnections source <->
  (r ∈ source /\ isExpandedGroup r = false) \/
  (exists g children,
     g ∈ source /\ isExpandedGroup g = true /\
     conn_configs g = Some children /\ r ∈ children).
Proof.
  induction source as [|s rest IH].
  - simpl. split.
    + by intros ?%elem_of_nil.
    + intros [[?%elem_of_nil _]|(g & ? & ?%elem_of_nil & _)]; done.
  - rewrite allConnections_cons, elem_of_app, IH, elem_of_flattenSource.
    split.
    + intros [[[-> Hs]|(children & Hs & Hc & Hin)]
             |[[Hin Hr]|(g & children & Hg & Hgs & Hc & Hin)]].
      * left. split; [apply list_elem_of_here|done].
      * right. exists s, children. split; [apply list_elem_of_here|done].
      * left. split; [by apply list_elem_of_further|done].
      * right. exists g, children. split; [by apply list_elem_of_further|done].
    + intros [[Hin Hr]|(g & children & Hg & Hgs & Hc & Hin)].
      * apply elem_of_cons in Hin as [->|Hin].
        -- left. by left.
        -- right. by left.
      * apply elem_of_cons in Hg as [->|Hg].
        -- left. right. by exists children.
        -- right. right. by exists g, children.
Qed.

(** X4. Settings in which no top-level record is a group with [configs]
    are flattened to themselves: same records, same order. This covers a
    record with [isGroup = true] and no [configs], which stays in the list
    and can be selected. *)
Theorem allConnections_without_groups (source : list IntellijConnection) :
  Forall (fun s => conn_isGroup s ≠ Some true \/ conn_configs s = None) source ->
  allConnections source = source.
Proof.
  induction 1 as [|s rest Hs _ IH]; [done|].
  rewrite allConnections_cons, IH, flattenSource_other; [done|].
  unfold isExpandedGroup. destruct Hs as [Hs| ->].
  - by rewrite (proj2 (truthy_bool_false_iff _) Hs).
  - apply andb_false_r.
Qed.

Lemma allConnections_without_groups_witness :
  allConnections [staging; prod] = [staging; prod].
Proof.
  apply (allConnections_without_groups [staging; prod]).
  repeat constructor; right; reflexivity.
Defined.

(** X5. The flattened list is empty exactly when every top-level record
    is a group whose [configs] is the empty array; in particular settings
    made of empty groups only leave nothing to select, although [source] is
    not empty. *)
Theorem allConnections_empty_iff (source : list IntellijConnection) :
  allConnections source = [] <->
  Forall (fun s => conn_isGroup s = Some true /\ conn_configs s = Some []) source.
Proof.
  induction source as [|s rest IH].
  - split; [constructor|done].
  - rewrite allConnections_cons, Forall_cons, <-IH. split.
    + intros [Hs Hrest]%app_eq_nil. split; [|done].
      unfold flattenSource in Hs.
      destruct (conn_isGroup s) as [[]|]; simpl in Hs; try done.
      destruct (conn_configs s) as [children|]; simpl in Hs; [|done].
      by subst.
    + intros [[Hg Hc] Hrest]. rewrite Hrest.
      by rewrite (flattenSource_group s []).
Qed.

(** ** The credential step of [load] *)


Lemma loadCredentials_configured (E : Env) (connection : IntellijConnection)
    (config : NormalizedConfig) (file key : string) :
  credentialsConfigured E file key ->
  loadCredentials E connection config
  = (let* cipherText := readFileSync E file in
     let* credentials :=
       decryptCredentials E cipherText key (credentialsAlgorithm E) in
     match credentials with
     | Some credentials =>
         Normal (withClientSecret credentials
                   (withPassword credentials connection config))
     | None => Normal config
     end).
Proof.
  intros (Hfile & Hfne & Hkey & Hkne & Hexists).
  unfold loadCredentials, credentialsAlgorithm. cbv zeta.
  rewrite Hfile, Hkey.
  by rewrite (truthy_string_Some file Hfne), (truthy_string_Some key Hkne), Hexists.
Qed.

Lemma loadCredentials_unconfigured (E : Env) (connection : IntellijConnection)
    (config : NormalizedConfig) :
  (forall file key, ~ credentialsConfigured E file key) ->
  loadCredentials E connection config = Normal config.
Proof.
  intros Hnot. unfold loadCredentials. cbv zeta.
  destruct (process_env E !! "SFCC_INTELLIJ_CREDENTIALS_FILE") as [file|] eqn:Hfile;
    [|done].
  destruct (process_env E !! "SFCC_INTELLIJ_CREDENTIALS_KEY") as [key|] eqn:Hkey;
    [|done].
  destruct (truthy_string (Some file)) eqn:Hf; [|done].
  destruct (truthy_string (Some key)) eqn:Hk; [|done].
  destruct (existsSync E file) eqn:Hexists; [|done].
  exfalso. apply (Hnot file key).
  apply truthy_string_true_iff in Hf as (? & [= <-] & ?).
  apply truthy_string_true_iff in Hk as (? & [= <-] & ?).
  by repeat split.
Qed.

(** Whether credentials are configured can be decided from the
    environment. *)
Lemma classic_configured (E : Env) :
  (exists file key, credentialsConfigured E file key) \/
  (forall file key, ~ credentialsConfigured E file key).
Proof.
  unfold credentialsConfigured.
  destruct (process_env E !! "SFCC_INTELLIJ_CREDENTIALS_FILE") as [file|];
    [|right; by intros ? ? (? & _)].
  destruct (process_env E !! "SFCC_INTELLIJ_CREDENTIALS_KEY") as [key|];
    [|right; by intros ? ? (_ & _ & ? & _)].
  destruct (decide (file = "")) as [->|Hf];
    [right; by intros ? ? ([= <-] & ? & _)|].
  destruct (decide (key = "")) as [->|Hk];
    [right; by intros ? ? (_ & _ & [= <-] & ? & _)|].
  destruct (existsSync E file) eqn:Hexists.
  - left. by exists file, key.
  - right. intros ? ? ([= <-] & _ & _ & _ & ?). congruence.
Qed.

Lemma selected_source_nonempty (options : ResolveConfigOptions)
    (settings : ConnectionSettings) (connection : IntellijConnection) :
  selectConnection options (allConnections (source settings)) = Some connection ->
  source settings ≠ [].
Proof.
  intros Hsel Hnil. rewrite Hnil in Hsel.
  unfold selectConnection in Hsel. by destruct (truthy_string _).
Qed.

(** [load] when no connection is resolved. *)
Lemma load_unresolved (E : Env) (this : IntelliJSource)
    (options : ResolveConfigOptions) (settings : ConnectionSettings) :
  getConnectionSettings E (projectFile E) = Normal (Some settings) ->
  source settings = [] \/
  selectConnection options (allConnections (source settings)) = None ->
  (load E this options).2 = Normal None.
Proof.
  intros Hsettings Hnone. unfold load. simpl. rewrite Hsettings. simpl.
  destruct Hnone as [-> | ->]; [done|].
  by destruct (length (source settings) =? 0)%nat.
Qed.

(** [load] after a connection has been resolved. *)
Lemma load_resolved (E : Env) (this : IntelliJSource) (options : ResolveConfigOptions)
    (settings : ConnectionSettings) (connection : IntellijConnection) :
  getConnectionSettings E (projectFile E) = Normal (Some settings) ->
  selectConnection options (allConnections (source settings)) = Some connection ->
  (load E this options).2
  = (let* config :=
       loadCredentials E connection (withClientId connection (baseConfig connection)) in
     Normal (Some config)).
Proof.
  intros Hsettings Hsel. unfold load. simpl. rewrite Hsettings. simpl.
  destruct (source settings) as [|s rest] eqn:Hsource.
  { unfold selectConnection in Hsel. by destruct (truthy_string _). }
  change (length (s :: rest) =? 0)%nat with false. by rewrite Hsel.
Qed.


(** X9. [load] returns absent exactly when the extractor returns absent,
    or the parsed settings have an empty [source], or no flattened record
    is selected. The credential step never turns a resolved connection
    into absent. *)
Theorem load_absent_iff
    (E : Env) (this : IntelliJSource) (options : ResolveConfigOptions) :
  (load E this options).2 = Normal None <->
  getConnectionSettings E (projectFile E) = Normal None \/
  exists settings,
    getConnectionSettings E (projectFile E) = Normal (Some settings) /\
    (source settings = [] \/
     selectConnection options (allConnections (source settings)) = None).
Proof.
  destruct (getConnectionSettings E (projectFile E)) as [[settings|]|e] eqn:Hsettings.
  - destruct (selectConnection options (allConnections (source settings)))
      as [connection|] eqn:Hsel.
    + rewrite (load_resolved E this options settings connection) by done.
      pose proof (selected_source_nonempty options settings connection Hsel).
      unfold bind. destruct (loadCredentials E connection _); split; try done;
        intros [?|(? & [= <-] & [?|?])]; congruence.
    + rewrite (load_unresolved E this options settings) by (done || by right).
      split; [|done]. intros _. right. exists settings. split; [done|]. by right.
  - unfold load. simpl. rewrite Hsettings. simpl. split; [by left|done].
  - unfold load. simpl. rewrite Hsettings. simpl.
    split; [done|]. intros [?|(? & ? & _)]; done.
Qed.


(** ** The fields of the returned config *)

Lemma withPassword_base (credentials : Credentials)
    (connection : IntellijConnection) (config : NormalizedConfig) :
  let config' := withPassword credentials connection config in
  cfg_hostname config' = cfg_hostname config /\
  cfg_webdavHostname config' = cfg_webdavHostname config /\
  cfg_username config' = cfg_username config /\
  cfg_codeVersion config' = cfg_codeVersion config /\
  cfg_shortCode config' = cfg_shortCode config /\
  cfg_clientSecret config' = cfg_clientSecret config.
Proof. unfold withPassword. by repeat case_match. Qed.

Lemma withClientSecret_base (credentials : Credentials) (config : NormalizedConfig) :
  let config' := withClientSecret credentials config in
  cfg_hostname config' = cfg_hostname config /\
  cfg_webdavHostname config' = cfg_webdavHostname config /\
  cfg_username config' = cfg_username config /\
  cfg_codeVersion config' = cfg_codeVersion config /\
  cfg_shortCode config' = cfg_shortCode config /\
  cfg_password config' = cfg_password config.
Proof. unfold withClientSecret. by repeat case_match. Qed.

Lemma withClientId_base (connection : IntellijConnection) :
  let config' := withClientId connection (baseConfig connection) in
  cfg_hostname config' = conn_hostname connection /\
  cfg_webdavHostname config' = conn_secureHostname connection /\
  cfg_username config' = conn_username connection /\
  cfg_codeVersion config' = conn_code_version connection /\
  cfg_shortCode config' = conn_shortCode connection /\
  cfg_password config' = None /\
  cfg_clientSecret config' = None.
Proof. unfold withClientId. by case_match. Qed.

Lemma withPassword_password_iff (credentials : Credentials)
    (connection : IntellijConnection) (config : NormalizedConfig)
    (password : string) :
  cfg_password config = None ->
  cfg_password (withPassword credentials connection config) = Some password <->
  password ≠ "" /\
  exists username hostname,
    conn_username connection = Some username /\ username ≠ "" /\
    conn_hostname connection = Some hostname /\ hostname ≠ "" /\
    findPassword credentials username hostname = Some password.
Proof.
  intros Hnone. unfold withPassword.
  destruct (conn_username connection) as [u|];
    [|rewrite Hnone; split; [done|by intros (_ & ? & ? & ? & _)]].
  destruct (conn_hostname connection) as [h|];
    [|rewrite Hnone; split; [done|by intros (_ & ? & ? & _ & _ & ? & _)]].
  destruct (truthy_string (Some u)) eqn:Hu; cbn [andb].
  2:{ rewrite Hnone. split; [done|].
      intros (_ & ? & ? & [= <-] & Hne & _).
      by rewrite (truthy_string_Some _ Hne) in Hu. }
  destruct (truthy_string (Some h)) eqn:Hh; cbn [andb].
  2:{ rewrite Hnone. split; [done|].
      intros (_ & ? & ? & _ & _ & [= <-] & Hne & _).
      by rewrite (truthy_string_Some _ Hne) in Hh. }
  apply truthy_string_true_iff in Hu as (? & [= <-] & Hune).
  apply truthy_string_true_iff in Hh as (? & [= <-] & Hhne).
  destruct (truthy_string (findPassword credentials u h)) eqn:Hp; cbn [andb].
  - apply truthy_string_true_iff in Hp as (p & Hp & Hpne). rewrite Hp. split.
    + intros [= <-]. split; [done|]. by exists u, h.
    + intros (_ & ? & ? & [= <-] & _ & [= <-] & _ & ?). simpl. congruence.
  - rewrite Hnone. split; [done|].
    intros (Hpne & ? & ? & [= <-] & _ & [= <-] & _ & Hfind).
    by rewrite Hfind, (truthy_string_Some _ Hpne) in Hp.
Qed.

Lemma withClientSecret_secret_iff (credentials : Credentials)
    (config : NormalizedConfig) (secret : string) :
  cfg_clientSecret config = None ->
  cfg_clientSecret (withClientSecret credentials config) = Some secret <->
  secret ≠ "" /\
  exists clientId,
    cfg_clientId config = Some clientId /\ clientId ≠ "" /\
    findClientSecret credentials clientId = Some secret.
Proof.
  intros Hnone. unfold withClientSecret.
  destruct (cfg_clientId config) as [id|];
    [|rewrite Hnone; split; [done|by intros (_ & ? & ? & _)]].
  destruct (truthy_string (Some id)) eqn:Hid; cbn [andb].
  2:{ rewrite Hnone. split; [done|].
      intros (_ & ? & [= <-] & Hne & _).
      by rewrite (truthy_string_Some _ Hne) in Hid. }
  apply truthy_string_true_iff in Hid as (? & [= <-] & Hidne).
  destruct (truthy_string (findClientSecret credentials id)) eqn:Hs; cbn [andb].
  - apply truthy_string_true_iff in Hs as (s & Hs & Hsne). rewrite Hs. split.
    + intros [= <-]. split; [done|]. by exists id.
    + intros (_ & ? & [= <-] & _ & ?). simpl. congruence.
  - rewrite Hnone. split; [done|].
    intros (Hsne & ? & [= <-] & _ & Hfind).
    by rewrite Hfind, (truthy_string_Some _ Hsne) in Hs.
Qed.

(** X11. Whenever [load] returns a config, its five base fields are
    those of the connection that selection resolved, under the field
    mapping [hostname], [secureHostname] to [webdavHostname], [username],
    ['code-version'] to [codeVersion], [shortCode]; the credential step
    leaves them untouched. *)
Theorem load_base_fields
    (E : Env) (this : IntelliJSource) (options : ResolveConfigOptions)
    (config : NormalizedConfig) :
  (load E this options).2 = Normal (Some config) ->
  exists settings connection,
    getConnectionSettings E (projectFile E) = Normal (Some settings) /\
    selectConnection options (allConnections (source settings)) = Some connection /\
    connection ∈ allConnections (source settings) /\
    cfg_hostname config = conn_hostname connection /\
    cfg_webdavHostname config = conn_secureHostname connection /\
    cfg_username config = conn_username connection /\
    cfg_codeVersion config = conn_code_version connection /\
    cfg_shortCode config = conn_shortCode connection.
Proof.
  intros (settings & connection & Hsettings & Hsel & Hcred)%load_inv.
  exists settings, connection. split; [done|]. split; [done|]. split.
  { unfold selectConnection in Hsel.
    destruct (truthy_string _); by apply find_elem_of in Hsel as [? _]. }
  pose proof (withClientId_base connection) as (H1 & H2 & H3 & H4 & H5 & _).
  apply loadCredentials_inv in Hcred as [->|[credentials ->]]; [done|].
  pose proof (withClientSecret_base credentials
                (withPassword credentials connection
                   (withClientId connection (baseConfig connection))))
    as (-> & -> & -> & -> & -> & _).
  pose proof (withPassword_base credentials connection
                (withClientId connection (baseConfig connection)))
    as (-> & -> & -> & -> & -> & _).
  done.
Qed.

Lemma load_base_fields_witness :
  exists settings connection,
    getConnectionSettings sampleEnv (projectFile sampleEnv)
    = Normal (Some settings) /\
    selectConnection {| instance := Some "staging" |}
      (allConnections (source settings)) = Some connection /\
    connection ∈ allConnections (source settings) /\
    Some "h0" = conn_hostname connection /\
    None = conn_secureHostname connection /\
    Some "u0" = conn_username connection /\
    Some "version1" = conn_code_version connection /\
    None = conn_shortCode connection.
Proof.
  apply (load_base_fields sampleEnv freshSource {| instance := Some "staging" |}
           {| cfg_hostname := Some "h0";
              cfg_webdavHostname := None;
              cfg_username := Some "u0";
              cfg_codeVersion := Some "version1";
              cfg_shortCode := None;
              cfg_clientId := Some "client1";
              cfg_password := Some "secret0";
              cfg_clientSecret := Some "clientsecret1" |}).
  vm_compute. reflexivity.
Defined.

(** X12. When a connection is resolved and no credentials are configured
    (the file variable or the key variable is unset or empty, or the file
    does not exist), [load] returns the config built from the connection
    alone: base fields, the conditional [clientId], no [password] and no
    [clientSecret]. *)
Theorem load_without_credentials
    (E : Env) (this : IntelliJSource) (options : ResolveConfigOptions)
    (settings : ConnectionSettings) (connection : IntellijConnection) :
  getConnectionSettings E (projectFile E) = Normal (Some settings) ->
  selectConnection options (allConnections (source settings)) = Some connection ->
  (forall file key, ~ credentialsConfigured E file key) ->
  (load E this options).2
  = Normal (Some (withClientId connection (baseConfig connection)))
  /\ cfg_password (withClientId connection (baseConfig connection)) = None
  /\ cfg_clientSecret (withClientId connection (baseConfig connection)) = None.
Proof.
  intros Hsettings Hsel Hnot.
  rewrite (load_resolved E this options settings connection) by done.
  rewrite loadCredentials_unconfigured by done.
  split; [done|]. by destruct (withClientId_base connection) as (_ & _ & _ & _ & _ & ? & ?).
Qed.

Lemma load_without_credentials_witness :
  (load noCredentialsEnv freshSource {| instance := None |}).2
  = Normal (Some (withClientId prod (baseConfig prod))).
Proof.
  apply (load_without_credentials noCredentialsEnv freshSource
           {| instance := None |} sampleSettings prod).
  - reflexivity.
  - reflexivity.
  - intros file key (Hfile & _). vm_compute in Hfile. discriminate Hfile.
Defined.

(** X13. When a connection is resolved, credentials are configured and
    the file is read, but [decryptCredentials] gives absent (some step of
    the decryption or the JSON parse raised), [load] still returns the
    config built from the connection alone, without [password] and
    [clientSecret]: a credentials file that cannot be decrypted is ignored. *)
Theorem load_undecryptable_credentials
    (E : Env) (this : IntelliJSource) (options : ResolveConfigOptions)
    (settings : ConnectionSettings) (connection : IntellijConnection)
    (file key cipherText : string) :
  getConnectionSettings E (projectFile E) = Normal (Some settings) ->
  selectConnection options (allConnections (source settings)) = Some connection ->
  credentialsConfigured E file key ->
  readFileSync E file = Normal cipherText ->
  decryptCredentials E cipherText key (credentialsAlgorithm E) = Normal None ->
  (load E this options).2
  = Normal (Some (withClientId connection (baseConfig connection))).
Proof.
  intros Hsettings Hsel Hconf Hread Hdecrypt.
  rewrite (load_resolved E this options settings connection) by done.
  rewrite (loadCredentials_configured E connection _ file key Hconf).
  rewrite Hread. simpl. by rewrite Hdecrypt.
Qed.

Lemma load_undecryptable_credentials_witness :
  (load wrongKeyEnv freshSource {| instance := None |}).2
  = Normal (Some (withClientId prod (baseConfig prod))).
Proof.
  apply (load_undecryptable_credentials wrongKeyEnv freshSource
           {| instance := None |} sampleSettings prod
           "credentials" "other" "Y2lwaGVy").
  - reflexivity.
  - reflexivity.
  - repeat split; (reflexivity || discriminate).
  - reflexivity.
  - reflexivity.
Defined.

(** X14. When a connection is resolved, credentials are configured, the
    file is read and decrypted to a store (with the algorithm of
    [SFCC_INTELLIJ_ALGORITHM], or ["aes-192-ecb"] when the variable is
    unset), [load] returns a config whose [password] is set to a value
    exactly when the connection has a non-empty [username] and [hostname]
    and [findPassword] gives that non-empty value for them, and whose
    [clientSecret] is set to a value exactly when the connection has
    [useOcapi = true], a non-empty [clientId], and [findClientSecret] gives
    that non-empty value for it. *)
Theorem load_with_decrypted_credentials
    (E : Env) (this : IntelliJSource) (options : ResolveConfigOptions)
    (settings : ConnectionSettings) (connection : IntellijConnection)
    (file key cipherText : string) (credentials : Credentials) :
  getConnectionSettings E (projectFile E) = Normal (Some settings) ->
  selectConnection options (allConnections (source settings)) = Some connection ->
  credentialsConfigured E file key ->
  readFileSync E file = Normal cipherText ->
  decryptCredentials E cipherText key (credentialsAlgorithm E)
  = Normal (Some credentials) ->
  exists config,
    (load E this options).2 = Normal (Some config) /\
    (forall password,
       cfg_password config = Some password <->
       password ≠ "" /\
       exists username hostname,
         conn_username connection = Some username /\ username ≠ "" /\
         conn_hostname connection = Some hostname /\ hostname ≠ "" /\
         findPassword credentials username hostname = Some password) /\
    (forall secret,
       cfg_clientSecret config = Some secret <->
       secret ≠ "" /\
       exists clientId,
         conn_useOcapi connection = Some true /\
         conn_clientId connection = Some clientId /\ clientId ≠ "" /\
         findClientSecret credentials clientId = Some secret).
Proof.
  intros Hsettings Hsel Hconf Hread Hdecrypt.
  rewrite (load_resolved E this options settings connection) by done.
  rewrite (loadCredentials_configured E connection _ file key Hconf).
  rewrite Hread. simpl. rewrite Hdecrypt. simpl.
  eexists. split; [reflexivity|].
  set (config0 := withClientId connection (baseConfig connection)).
  pose proof (withClientId_base connection) as (_ & _ & _ & _ & _ & Hp0 & Hs0).
  fold config0 in Hp0, Hs0. split.
  - intros password.
    destruct (withClientSecret_base credentials
                (withPassword credentials connection config0))
      as (_ & _ & _ & _ & _ & ->).
    by apply withPassword_password_iff.
  - intros secret.
    rewrite withClientSecret_secret_iff.
    2:{ by destruct (withPassword_base credentials connection config0)
          as (_ & _ & _ & _ & _ & ->). }
    rewrite withPassword_clientId. subst config0. split.
    + intros (Hne & id & Hid%withClientId_iff & Hidne & Hfind).
      split; [done|]. exists id. by destruct Hid as (? & ? & _).
    + intros (Hne & id & Hocapi & Hid & Hidne & Hfind).
      split; [done|]. exists id. split; [|done]. by apply withClientId_iff.
Qed.

Lemma load_with_decrypted_credentials_witness :
  exists config,
    (load sampleEnv freshSource {| instance := None |}).2 = Normal (Some config) /\
    (forall password,
       cfg_password config = Some password <->
       password ≠ "" /\
       exists username hostname,
         conn_username prod = Some username /\ username ≠ "" /\
         conn_hostname prod = Some hostname /\ hostname ≠ "" /\
         findPassword sampleCredentials username hostname = Some password) /\
    (forall secret,
       cfg_clientSecret config = Some secret <->
       secret ≠ "" /\
       exists clientId,
         conn_useOcapi prod = Some true /\
         conn_clientId prod = Some clientId /\ clientId ≠ "" /\
         findClientSecret sampleCredentials clientId = Some secret).
Proof.
  apply (load_with_decrypted_credentials sampleEnv freshSource
           {| instance := None |} sampleSettings prod
           "credentials" "key" "Y2lwaGVy" sampleCredentials).
  - reflexivity.
  - reflexivity.
  - repeat split; (reflexivity || discriminate).
  - reflexivity.
  - reflexivity.
Defined.

(** X15. A [password] or a [clientSecret] in the config that [load]
    returns always comes from a decrypted store: credentials were
    configured, the file existed and was read, and [decryptCredentials]
    returned a store. *)
Theorem load_secrets_need_decrypted_store
    (E : Env) (this : IntelliJSource) (options : ResolveConfigOptions)
    (config : NormalizedConfig) :
  (load E this options).2 = Normal (Some config) ->
  cfg_password config ≠ None \/ cfg_clientSecret config ≠ None ->
  exists file key cipherText credentials,
    credentialsConfigured E file key /\
    readFileSync E file = Normal cipherText /\
    decryptCredentials E cipherText key (credentialsAlgorithm E)
    = Normal (Some credentials).
Proof.
  intros (settings & connection & _ & _ & Hcred)%load_inv Hset.
  pose proof (withClientId_base connection) as (_ & _ & _ & _ & _ & Hp0 & Hs0).
  assert (config ≠ withClientId connection (baseConfig connection)) as Hne.
  { intros ->. destruct Hset; congruence. }
  destruct (classic_configured E) as [(file & key & Hconf)|Hnot].
  2:{ rewrite loadCredentials_unconfigured in Hcred by done. congruence. }
  rewrite (loadCredentials_configured E connection _ file key Hconf) in Hcred.
  unfold bind in Hcred.
  destruct (readFileSync E file) as [cipherText|] eqn:Hread; [|done].
  destruct (decryptCredentials E cipherText key (credentialsAlgorithm E))
    as [[credentials|]|] eqn:Hdecrypt; [|congruence|done].
  by exists file, key, cipherText, credentials.
Qed.

Lemma load_secrets_need_decrypted_store_witness :
  exists file key cipherText credentials,
    credentialsConfigured sampleEnv file key /\
    readFileSync sampleEnv file = Normal cipherText /\
    decryptCredentials sampleEnv cipherText key (credentialsAlgorithm sampleEnv)
    = Normal (Some credentials).
Proof.
  apply (load_secrets_need_decrypted_store sampleEnv freshSource
           {| instance := None |} prodConfig).
  - vm_compute. reflexivity.
  - left. discriminate.
Defined.

(** X16. In every config that [load] returns, a secret never comes
    without what identifies it: a [clientSecret] only together with a
    non-empty [clientId], and a [password] only together with a non-empty
    [username] and a non-empty [hostname]. *)
Theorem load_secrets_with_identifiers
    (E : Env) (this : IntelliJSource) (options : ResolveConfigOptions)
    (config : NormalizedConfig) :
  (load E this options).2 = Normal (Some config) ->
  (cfg_clientSecret config ≠ None ->
   exists clientId, cfg_clientId config = Some clientId /\ clientId ≠ "")
  /\ (cfg_password config ≠ None ->
      exists username hostname,
        cfg_username config = Some username /\ username ≠ "" /\
        cfg_hostname config = Some hostname /\ hostname ≠ "").
Proof.
  intros (settings & connection & _ & _ & Hcred)%load_inv.
  set (config0 := withClientId connection (baseConfig connection)) in *.
  pose proof (withClientId_base connection)
    as (Hh0 & _ & Hu0 & _ & _ & Hp0 & Hs0).
  fold config0 in Hh0, Hu0, Hp0, Hs0.
  apply loadCredentials_inv in Hcred as [->|[credentials ->]].
  { split; intros Hset; congruence. }
  destruct (withClientSecret_base credentials
              (withPassword credentials connection config0))
    as (Hh1 & _ & Hu1 & _ & _ & Hp1).
  destruct (withPassword_base credentials connection config0)
    as (Hh2 & _ & Hu2 & _ & _ & Hs2).
  split.
  - intros Hset.
    destruct (cfg_clientSecret (withClientSecret _ _)) as [secret|] eqn:Hsecret;
      [|done].
    apply withClientSecret_secret_iff in Hsecret
      as (_ & id & Hid & Hidne & _); [|congruence].
    exists id. by rewrite withClientSecret_clientId.
  - intros Hset. rewrite Hp1 in Hset.
    destruct (cfg_password (withPassword _ _ _)) as [password|] eqn:Hpassword;
      [|done].
    apply withPassword_password_iff in Hpassword
      as (_ & u & h & Hu & Hune & Hh & Hhne & _); [|done].
    exists u, h. rewrite Hu1, Hu2, Hu0, Hh1, Hh2, Hh0. done.
Qed.

Lemma load_secrets_with_identifiers_witness :
  (cfg_clientSecret prodConfig ≠ None ->
   exists clientId, cfg_clientId prodConfig = Some clientId /\ clientId ≠ "")
  /\ (cfg_password prodConfig ≠ None ->
      exists username hostname,
        cfg_username prodConfig = Some username /\ username ≠ "" /\
        cfg_hostname prodConfig = Some hostname /\ hostname ≠ "").
Proof.
  apply (load_secrets_with_identifiers sampleEnv freshSource
           {| instance := None |} prodConfig).
  vm_compute. reflexivity.
Defined.

Lemma getConnectionSettings_parsed_document_witness :
  exists r, getConnectionSettings sampleEnv "misc.xml" = Normal r.
Proof.
  exact (proj1 (getConnectionSettings_parsed_document
                  sampleEnv "misc.xml" "<project/>" sampleDocument
                  eq_refl eq_refl eq_refl)).
Defined.
